(** * The USGS earthquake dashboard ([earthquake_dashboard.py])

    A shallow embedding of the script's data pipeline: the cached
    [load_data] (fetch, [pd.json_normalize], column selection, coordinate
    decomposition, [pd.to_datetime], the two magnitude filters), the sidebar
    slider, the threshold filter and the three presentation branches.

    Python values are the objects [response.json()] builds; floats are
    binary64 ([PrimFloat.float]); an exception is a result; what a run puts
    on the page is the list of its elements. The provider, the slider
    widget and the clock are arguments, and so is what pandas decides on its
    own or differently from one version to the next: which times beyond the
    nanosecond range [to_datetime] accepts, the order [sort_values] leaves
    among rows of equal date, and what a [mean] comes to. The rest of what
    the script uses of pandas, Streamlit and Python's built-ins is written
    out where it is used. *)

From Stdlib Require Import ZArith List Ascii String Bool Lia Floats Sorted Permutation.
From stdpp Require Import base option list gmap strings.
Set Warnings "-inexact-float,-register-all".
Local Open Scope Z_scope.

(** ** Python objects decoded from JSON *)

(** [json.loads] gives [None], [bool], [int], [float] (also [NaN] and the
    infinities, which Python's decoder accepts), [str], [list] and [dict].
    A dict is kept as its list of members in insertion order, each key
    once. *)
Inductive json : Type :=
  | JNull
  | JBool (b : bool)
  | JInt (z : Z)
  | JFloat (f : float)
  | JStr (s : string)
  | JArr (items : list json)
  | JObj (members : list (string * json)).

(** ** Exceptions *)

(** The classes are indicative: the script only ever looks at whether
    something was raised ([except Exception as e]) and prints [e]. *)
Inductive exn : Type :=
  | RequestException
  | JSONDecodeError
  | KeyError
  | IndexError
  | TypeError
  | ValueError
  | NotImplementedError
  | OutOfBoundsDatetime
  | OverflowError
  | StreamlitAPIException.

Inductive result (A : Type) : Type :=
  | Ok (a : A)
  | Raise (e : exn).
Arguments Ok {A} a.
Arguments Raise {A} e.

#[global] Instance result_ret : MRet result := fun _ a => Ok a.
#[global] Instance result_bind : MBind result :=
  fun _ _ f m => match m with Ok a => f a | Raise e => Raise e end.

(** [Series.apply(f)]: [f] on every cell, top to bottom; the first exception
    aborts the whole column. *)
Fixpoint apply {A B : Type} (f : A -> result B) (col : list A) : result (list B) :=
  match col with
  | [] => Ok []
  | x :: col' => y ← f x; ys ← apply f col'; Ok (y :: ys)
  end.

(** ** Dicts and subscripts *)

(** A later binding of a key replaces an earlier one, as when a dict is
    filled by successive assignments. *)
Fixpoint dict_get (k : string) (members : list (string * json)) : option json :=
  match members with
  | [] => None
  | (k', v) :: rest =>
      match dict_get k rest with
      | Some v' => Some v'
      | None => if String.eqb k k' then Some v else None
      end
  end.

(** [d[k]] for a string key. *)
Definition getitem (d : json) (k : string) : result json :=
  match d with
  | JObj members =>
      match dict_get k members with
      | Some v => Ok v
      | None => Raise KeyError
      end
  | _ => Raise TypeError
  end.

(** A text is kept as its UTF-8 bytes, while Python indexes a [str] by code
    point. A byte [10xxxxxx] continues the code point begun before it. *)
Definition is_continuation (c : ascii) : bool :=
  match c with
  | Ascii _ _ _ _ _ _ false true => true
  | _ => false
  end.

Definition continues (s : string) : bool :=
  match s with
  | String c _ => is_continuation c
  | EmptyString => false
  end.

(** The code points of a text, each as the text of its own bytes. *)
Fixpoint code_points (s : string) : list string :=
  match s with
  | EmptyString => []
  | String c s' =>
      match code_points s' with
      | p :: ps =>
          if continues s' then String c p :: ps
          else String c EmptyString :: p :: ps
      | [] => [String c EmptyString]
      end
  end.

(** [x[i]] for a literal index [i >= 0]: an element of a list, a character
    (code point) of a text. A JSON dict has string keys only, so an integer
    subscript on it is a [KeyError]. *)
Definition subscript (x : json) (i : nat) : result json :=
  match x with
  | JArr items =>
      match nth_error items i with
      | Some v => Ok v
      | None => Raise IndexError
      end
  | JStr s =>
      match nth_error (code_points s) i with
      | Some c => Ok (JStr c)
      | None => Raise IndexError
      end
  | JObj _ => Raise KeyError
  | JNull | JBool _ | JInt _ | JFloat _ => Raise TypeError
  end.

(** ** [pd.json_normalize] *)

Definition is_dict (v : json) : bool :=
  match v with JObj _ => true | _ => false end.

(** The column name of member [k] below [key_string]. *)
Definition new_key (key_string k : string) : string :=
  if String.eqb key_string "" then k else key_string +:+ "." +:+ k.

(** [_normalise_json]: nested dicts are flattened into dotted keys; a nested
    empty dict contributes nothing. *)
Fixpoint normalise_json (key_string : string) (v : json) {struct v} : list (string * json) :=
  match v with
  | JObj members =>
      (fix members_of (ms : list (string * json)) : list (string * json) :=
         match ms with
         | [] => []
         | (k, x) :: rest => normalise_json (new_key key_string k) x ++ members_of rest
         end) members
  | _ => [(key_string, v)]
  end.

(** [_normalise_json_ordered]: the top-level scalars first, then the flattened
    nested dicts (which therefore win over a scalar of the same dotted name). *)
Definition normalise_json_ordered (members : list (string * json)) : list (string * json) :=
  List.filter (fun kv => negb (is_dict kv.2)) members
  ++ normalise_json "" (JObj (List.filter (fun kv => is_dict kv.2) members)).

(** [_simple_json_normalize] on one element of the list: an element that is
    not a dict brings no named column. *)
Definition simple_json_normalize (ds : json) : list (string * json) :=
  match ds with
  | JObj members => normalise_json_ordered members
  | _ => []
  end.

(** The frame [pd.json_normalize] returns, as its records; its columns are
    the keys that occur in some record. Only a list and a dict are
    accepted. *)
Definition json_normalize (data : json) : result (list (list (string * json))) :=
  match data with
  | JArr features => Ok (simple_json_normalize <$> features)
  | JObj _ => Ok [simple_json_normalize data]
  | _ => Raise NotImplementedError
  end.

Definition has_column (c : string) (records : list (list (string * json))) : bool :=
  existsb (fun r => bool_decide (is_Some (dict_get c r))) records.

(** The cell of column [c] in a record; a record without the key has a
    missing value there. Pandas' missing value ([NaN]) and [None] are both
    written [JNull]: the script tells them apart nowhere. *)
Definition cell (c : string) (r : list (string * json)) : json :=
  default JNull (dict_get c r).

(** ** Frames *)

(** The frame after lines 54-60: the four selected and renamed columns. *)
Record Selected : Type := mkSelected {
  sel_place : json;
  sel_mag : json;
  sel_time : json;
  sel_coordinates : json;
}.

(** [datetime64[ns]]: nanoseconds since the epoch, or [NaT]. *)
Inductive datetime : Type :=
  | NaT
  | Timestamp (ns : Z).

(** A row of the frame [load_data] returns. *)
Record Row : Type := mkRow {
  place : json;
  mag : json;
  time : json;
  coordinates : json;
  lon : json;
  lat : json;
  depth : json;
  date : datetime;
}.

(** A frame is the list of its rows, top to bottom; [pd.DataFrame()] and a
    frame with columns but no rows are both [[]], as [df.empty] is true of
    both and the script reads no column of an empty frame. *)
Definition DataFrame : Type := list Row.

(** A row under the four columns of the table, line 106. *)
Record TableRow : Type := mkTableRow {
  table_date : datetime;
  table_place : json;
  table_mag : json;
  table_depth : json;
}.

Definition table_columns (r : Row) : TableRow :=
  mkTableRow (date r) (place r) (mag r) (depth r).

Definition empty (df : DataFrame) : bool :=
  match df with [] => true | _ => false end.

(** One record under the four selected columns. *)
Definition selected_of (r : list (string * json)) : Selected :=
  mkSelected (cell "properties.place" r) (cell "properties.mag" r)
             (cell "properties.time" r) (cell "geometry.coordinates" r).

(** [df[[...]]] with the four dotted names, then [df.columns = [...]]: a
    [KeyError] unless each of the four is a column of the frame. *)
Definition select_columns (records : list (list (string * json))) : result (list Selected) :=
  if has_column "properties.place" records
     && has_column "properties.mag" records
     && has_column "properties.time" records
     && has_column "geometry.coordinates" records
  then Ok (selected_of <$> records)
  else Raise KeyError.

(** [df["lon"] = ...; df["lat"] = ...; df["depth"] = ...; df["date"] = ...]:
    the new columns are laid beside the old ones, row by row. *)
Fixpoint assign (df : list Selected) (lons lats depths : list json) (dates : list datetime)
  : DataFrame :=
  match df, lons, lats, depths, dates with
  | s :: df', lo :: lons', la :: lats', de :: depths', da :: dates' =>
      mkRow (sel_place s) (sel_mag s) (sel_time s) (sel_coordinates s) lo la de da
      :: assign df' lons' lats' depths' dates'
  | _, _, _, _, _ => []
  end.

(** [df[mask]]: the rows whose mask entry is [True], in order, as a new
    frame. *)
Fixpoint boolean_index {A : Type} (df : list A) (mask : list bool) : list A :=
  match df, mask with
  | r :: df', b :: mask' =>
      if b then r :: boolean_index df' mask' else boolean_index df' mask'
  | _, _ => []
  end.

(** ** Numbers and missing values *)

(** The binary64 nearest to an integer. *)
Definition float_of_Z (z : Z) : float :=
  SF2Prim (binary_normalize prec emax z 0 false).

(** The float64 a cell is compared as. Integers and booleans compare by
    value; a missing value is [NaN], which compares false with everything;
    text and lists cannot be compared with a number. *)
Definition number (c : json) : result float :=
  match c with
  | JFloat f => Ok f
  | JInt z => Ok (float_of_Z z)
  | JBool b => Ok (if b then 1%float else 0%float)
  | JNull => Ok nan
  | JStr _ | JArr _ | JObj _ => Raise TypeError
  end.

(** [pd.isnull] on one cell: [None] and [NaN]. *)
Definition isnull (c : json) : bool :=
  match c with
  | JNull => true
  | JFloat f => is_nan f
  | _ => false
  end.

(** [series.notnull()]. *)
Definition notnull (col : list json) : list bool :=
  (fun c => negb (isnull c)) <$> col.

(** [series > x] and [series >= x]. *)
Definition gt (col : list json) (x : float) : result (list bool) :=
  apply (fun c => v ← number c; Ok (x <? v)%float) col.

Definition ge (col : list json) (x : float) : result (list bool) :=
  apply (fun c => v ← number c; Ok (x <=? v)%float) col.

(** ** What is left to pandas *)

(** What the script takes from pandas without fixing it by what it passes,
    or what differs between the versions of pandas the script runs on (it
    pins none); these are arguments of the model.

    [pd.to_datetime(..., unit="ms")] on an integer count of milliseconds
    whose nanoseconds do not fit [int64]: pandas before 3.0 stores
    nanoseconds and raises, from 3.0 on it keeps the millisecond unit and
    accepts the count. On a time that is a fraction or text, what it parses
    and how it rounds is its own.

    [sort_values("date", ascending=False)] sorts with pandas' default
    algorithm, which is not stable: the order it leaves among rows of equal
    date is its own.

    [series.mean()] is a float that depends on how pandas sums, or the
    exception the column makes it end in. *)
Record Pandas : Type := mkPandas {
  accepts_beyond_ns : Z -> bool;
  to_datetime_other : json -> result datetime;
  sort_values : list TableRow -> list TableRow;
  mean : list json -> result float;
}.

(** ** [pd.to_datetime(..., unit="ms")] *)

(** The integer that stands for [NaT] in an [int64] column. *)
Definition iNaT : Z := - 2 ^ 63.

Definition Timestamp_min : Z := - (2 ^ 63 - 1).
Definition Timestamp_max : Z := 2 ^ 63 - 1.

(** The nanosecond count fits [int64]. *)
Definition fits_ns (ns : Z) : bool :=
  (Timestamp_min <=? ns) && (ns <=? Timestamp_max).

Section ToDatetime.

Variable pd : Pandas.

(** One cell of the [time] column. A missing value gives [NaT], and so does
    the one integer [int64] reserves for it. Any other integer is a count
    of milliseconds: its date is that instant, written as its count of
    nanoseconds, unless that count does not fit [int64] and this pandas
    raises. (A column that also holds a missing value is float64; epoch
    milliseconds within the bounds are below [2^53], so they are whole
    there and give the same dates.) A boolean, a list or a dict is not
    convertible. *)
Definition to_datetime_ms (c : json) : result datetime :=
  match c with
  | JNull => Ok NaT
  | JInt z =>
      if z =? iNaT then Ok NaT
      else if fits_ns (z * 1000000) || accepts_beyond_ns pd z
           then Ok (Timestamp (z * 1000000))
           else Raise OutOfBoundsDatetime
  | JFloat f => if is_nan f then Ok NaT else to_datetime_other pd c
  | JStr _ => to_datetime_other pd c
  | JBool _ | JArr _ | JObj _ => Raise TypeError
  end.

Definition to_datetime (col : list json) : result (list datetime) :=
  apply to_datetime_ms col.

End ToDatetime.

(** ** The network *)

(** What [requests.get(url)] returns; [response.json()] is the decoded body,
    or the decoder's exception when the body is not JSON. *)
Record Response : Type := mkResponse {
  response_json : result json;
}.

(** ** What the script shows *)

Record SliderArgs : Type := mkSliderArgs {
  min_value : float;
  max_value : float;
  value : float;
  step : float;
}.

(** The elements the script puts on the page, in order. The static texts
    (title, notes, footer) are left out. [St_error e] is the text
    [f"Error fetching data: {e}"]. *)
Inductive element : Type :=
  | St_error (e : exn)
  | Sidebar_slider (args : SliderArgs)
  | Sidebar_write_showing (mag_filter : float)
  | Sidebar_write_total (n : nat)
  | St_dataframe (rows : list TableRow)
  | St_pydeck_chart (data : DataFrame) (latitude longitude : float)
  | St_warning.

(** ** [load_data] *)

Section LoadData.

Variable pd : Pandas.

(** [requests.get]: for each URL a response, or the exception the request
    ends in. *)
Variable requests_get : string -> result Response.

(** The [try] block, lines 49-74. *)
Definition load_data_try (url : string) : result DataFrame :=
  response ← requests_get url;
  data ← response_json response;
  features ← getitem data "features";
  df ← json_normalize features;
  df ← select_columns df;
  lons ← apply (fun x => subscript x 0) (sel_coordinates <$> df);
  lats ← apply (fun x => subscript x 1) (sel_coordinates <$> df);
  depths ← apply (fun x => subscript x 2) (sel_coordinates <$> df);
  dates ← to_datetime pd (sel_time <$> df);
  let df := assign df lons lats depths dates in
  let df := boolean_index df (notnull (mag <$> df)) in
  mask ← gt (mag <$> df) 0;
  Ok (boolean_index df mask).

(** [load_data]: the frame, and what it put on the page. *)
Definition load_data (url : string) : DataFrame * list element :=
  match load_data_try url with
  | Ok df => (df, [])
  | Raise e => ([], [St_error e])
  end.

End LoadData.

(** ** The sidebar slider and the threshold filter *)

(** The nearest integer to [a / b], ties to the even one ([0 <= a], [0 < b]). *)
Definition div_half_even (a b : Z) : Z :=
  let q := a / b in
  let r := a mod b in
  if 2 * r <? b then q
  else if b <? 2 * r then q + 1
  else if Z.even q then q else q + 1.

(** Python's [round(x, 1)] on a float: the binary64 nearest to the one-decimal
    number nearest to [x] (ties to even on the exact value of [x]); [NaN] and
    the infinities, and every float that is a whole number, round to
    themselves. *)
Definition round1 (x : float) : float :=
  match Prim2SF x with
  | S754_finite s m e =>
      if 0 <=? e then x
      else match div_half_even (Z.pos m * 10) (2 ^ (- e)) with
           | Z.pos n => SF2Prim (SFdiv prec emax (S754_finite s n 0) (S754_finite false 10 0))
           | _ => SF2Prim (S754_zero s)
           end
  | _ => x
  end.

Definition is_int (c : json) : bool :=
  match c with JInt _ => true | _ => false end.

(** [a < b] between two numbers of a column, as [min] and [max] compare
    them. The binary64 values decide, but for one case: Python compares an
    integer with a float exactly, so an integer too large for binary64
    is below the float [inf], and above the float [-inf], although it is
    compared as that infinity everywhere else in this model. *)
Definition below (a b : json) : bool :=
  match number a, number b with
  | Ok x, Ok y =>
      if (x =? y)%float && is_infinity x
      then if (0 <? x)%float then is_int a && negb (is_int b)
           else negb (is_int a) && is_int b
      else (x <? y)%float
  | _, _ => false
  end.

(** One step of [min] and of [max]: a missing value is skipped, and of two
    equal elements the earlier one stays. *)
Definition smaller (acc c : json) : json :=
  if isnull c then acc else if isnull acc then c else if below c acc then c else acc.

Definition larger (acc c : json) : json :=
  if isnull c then acc else if isnull acc then c else if below acc c then c else acc.

(** [series.min()] and [series.max()]: an element of the column, or [NaN]
    when every value is missing. The cells are compared as numbers, so text
    or a list among them is a [TypeError]. *)
Definition series_min (col : list json) : result json :=
  _ ← apply number col; Ok (foldl smaller (JFloat nan) col).

Definition series_max (col : list json) : result json :=
  _ ← apply number col; Ok (foldl larger (JFloat nan) col).

(** An integer that binary64 cannot hold: the nearest float is an infinity. *)
Definition too_large (c : json) : bool :=
  match c with JInt z => is_infinity (float_of_Z z) | _ => false end.

(** [float(x)] on a number: an [OverflowError] on an integer too large for
    binary64, the number as a float otherwise. *)
Definition py_float (c : json) : result float :=
  if too_large c then Raise OverflowError else number c.

(** Line 96, [df[df["mag"] >= mag_filter]]. *)
Definition filter_stage (df : DataFrame) (mag_filter : float) : result DataFrame :=
  mask ← ge (mag <$> df) mag_filter;
  Ok (boolean_index df mask).

(** ** The page *)

(** A run of a piece of the script: the elements shown so far, and the value
    it ends with or the exception that stopped it. *)
Record Page (A : Type) : Type := mkPage {
  shown : list element;
  outcome : result A;
}.
Arguments mkPage {A} shown outcome.
Arguments shown {A} p.
Arguments outcome {A} p.

#[global] Instance page_ret : MRet Page := fun _ a => mkPage [] (Ok a).
#[global] Instance page_bind : MBind Page :=
  fun _ _ f m =>
    match outcome m with
    | Ok a => mkPage (shown m ++ shown (f a)) (outcome (f a))
    | Raise e => mkPage (shown m) (Raise e)
    end.

Definition show (e : element) : Page unit := mkPage [e] (Ok tt).
Definition lift {A : Type} (r : result A) : Page A := mkPage [] r.

Section Script.

Variable pd : Pandas.

(** [st.sidebar.slider]: the value the widget holds for the arguments it
    is called with (the default on a first run, the user's choice
    afterwards), or the exception of a widget that refuses its arguments,
    which nothing in the script catches. *)
Variable slider : SliderArgs -> result float.

(** Section 4 of the script, lines 84-98. *)
Definition magnitude_filter (df : DataFrame) : Page DataFrame :=
  if empty df then mret df
  else
    min_mag ← lift (series_min (mag <$> df) ≫= py_float);
    max_mag ← lift (series_max (mag <$> df) ≫= py_float);
    let args := mkSliderArgs (round1 min_mag) (round1 max_mag) 2.5 0.1 in
    mag_filter ← lift (slider args);
    _ ← show (Sidebar_slider args);
    df ← lift (filter_stage df mag_filter);
    _ ← show (Sidebar_write_showing mag_filter);
    _ ← show (Sidebar_write_total (length df));
    mret df.

(** Lines 106-109: the four columns, sorted, the first 20 rows. *)
Definition table_view (df : DataFrame) : list TableRow :=
  take 20 (sort_values pd (table_columns <$> df)).

(** Section 5, lines 103-110. *)
Definition table_section (df : DataFrame) : Page unit :=
  if empty df then mret tt
  else show (St_dataframe (table_view df)).

(** Section 6, lines 115-151: the layer over the whole frame, and the
    camera centred on the means of [lat] and [lon]. *)
Definition map_section (df : DataFrame) : Page unit :=
  if empty df then show St_warning
  else
    latitude ← lift (mean pd (lat <$> df));
    longitude ← lift (mean pd (lon <$> df));
    show (St_pydeck_chart df latitude longitude).

(** Everything after [df = load_data(url)]. *)
Definition render (df : DataFrame) : Page unit :=
  df ← magnitude_filter df;
  _ ← table_section df;
  map_section df.

End Script.

(** ** The cache, [@st.cache_data(ttl=600)] *)

(** An entry keeps what the function returned, the elements it showed (they
    are replayed on a hit) and the clock reading when it was stored. *)
Record Entry : Type := mkEntry {
  cached_value : DataFrame;
  cached_elements : list element;
  stored_at : Z;
}.

(** What a call of the decorated function amounts to. *)
Record Lookup : Type := mkLookup {
  returned : DataFrame;
  replayed : list element;
  calls : nat;
  cache_after : gmap string Entry;
}.

(** The entry for [url] if there is one and its age is below [ttl]. *)
Definition fresh_entry (ttl now : Z) (cache : gmap string Entry) (url : string) : option Entry :=
  entry ← cache !! url;
  if now <? stored_at entry + ttl then Some entry else None.

(** The decorator. The clock is in seconds. A fresh entry is served as it
    is; otherwise [func] runs once and what it returned and showed is stored
    under the current clock reading. *)
Definition cache_data (ttl : Z) (func : string -> DataFrame * list element)
    (now : Z) (cache : gmap string Entry) (url : string) : Lookup :=
  match fresh_entry ttl now cache url with
  | Some entry => mkLookup (cached_value entry) (cached_elements entry) 0 cache
  | None =>
      let '(df, elements) := func url in
      mkLookup df elements 1 (<[url := mkEntry df elements now]> cache)
  end.

Definition load_data_cached (pd : Pandas) (requests_get : string -> result Response)
  : Z -> gmap string Entry -> string -> Lookup :=
  cache_data 600 (load_data pd requests_get).

(** ** The script *)

Inductive Timeframe : Type := PastHour | PastDay | Past7Days | Past30Days.

Definition timeframe_urls (timeframe : Timeframe) : string :=
  match timeframe with
  | PastHour => "https://earthquake.usgs.gov/earthquakes/feed/v1.0/summary/all_hour.geojson"
  | PastDay => "https://earthquake.usgs.gov/earthquakes/feed/v1.0/summary/all_day.geojson"
  | Past7Days => "https://earthquake.usgs.gov/earthquakes/feed/v1.0/summary/all_week.geojson"
  | Past30Days => "https://earthquake.usgs.gov/earthquakes/feed/v1.0/summary/all_month.geojson"
  end.

(** One run of the script: the page, and the cache it leaves. *)
Definition dashboard (timeframe : Timeframe) (requests_get : string -> result Response)
    (pd : Pandas) (slider : SliderArgs -> result float) (now : Z) (cache : gmap string Entry)
  : Page unit * gmap string Entry :=
  let url := timeframe_urls timeframe in
  let l := load_data_cached pd requests_get now cache url in
  (_ ← mkPage (replayed l) (Ok tt); render pd slider (returned l), cache_after l).

(** ** A pandas and a slider for the examples *)

(** A stable sort by date, latest first and [NaT] last. *)
Definition sorts_before (a b : datetime) : bool :=
  match a, b with
  | _, NaT => true
  | NaT, Timestamp _ => false
  | Timestamp x, Timestamp y => y <=? x
  end.

Fixpoint insert_by_date (r : TableRow) (rows : list TableRow) : list TableRow :=
  match rows with
  | [] => [r]
  | r' :: rows' =>
      if sorts_before (table_date r) (table_date r') then r :: rows
      else r' :: insert_by_date r rows'
  end.

Definition stable_sort_by_date (rows : list TableRow) : list TableRow :=
  foldr insert_by_date [] rows.

(** The mean of the values that are not missing, summed from left to
    right. *)
Definition mean_left_to_right (col : list json) : result float :=
  vs ← apply number col;
  let present := List.filter (fun v => negb (is_nan v)) vs in
  Ok (foldl PrimFloat.add 0%float present / float_of_Z (Z.of_nat (length present)))%float.

(** A pandas that stores nanoseconds, as the versions before 3.0 do, and so
    accepts no count beyond them. The examples have no time that is a
    fraction or text: this one refuses them all. *)
Definition pandas_ns : Pandas :=
  mkPandas (fun _ => false) (fun _ => Raise ValueError) stable_sort_by_date mean_left_to_right.

(** A slider that accepts its arguments and holds the default, as on a
    first run. *)
Definition first_run (args : SliderArgs) : result float := Ok (value args).

(** ** Feeds used in the examples *)

(** A GeoJSON feature and feed as the provider lays them out. *)
Definition feature (pl mg tm : json) (coords : list json) : json :=
  JObj [("type", JStr "Feature");
        ("properties", JObj [("mag", mg); ("place", pl); ("time", tm)]);
        ("geometry", JObj [("type", JStr "Point"); ("coordinates", JArr coords)])]%string.

Definition feed (features : list json) : json :=
  JObj [("type", JStr "FeatureCollection"); ("features", JArr features)]%string.

(** A provider that answers every URL with the same body. *)
Definition serving (body : json) : string -> result Response :=
  fun _ => Ok (mkResponse (Ok body)).

Definition feed_null_neg_pos : json :=
  feed [feature (JStr "a") JNull (JInt 1700000000000) [JFloat 1; JFloat 2; JFloat 3];
        feature (JStr "b") (JFloat (-1)) (JInt 1700000000001) [JFloat 4; JFloat 5; JFloat 6];
        feature (JStr "c") (JFloat 4.2) (JInt 1700000000002)
                [JFloat 139.7; JFloat 35.6; JFloat 10]]%float.

Definition feed_4_5_6 : json :=
  feed [feature (JStr "a") (JFloat 4) (JInt 1700000000000)
                [JFloat 139.7; JFloat 35.6; JFloat 10];
        feature (JStr "b") (JFloat 5) (JInt 1700000000001) [JFloat 4; JFloat 5; JFloat 6];
        feature (JStr "c") (JFloat 6.5) (JInt 1700000000002) [JFloat 7; JFloat 8; JFloat 9]]%float.

Definition feed_short_coordinates : json :=
  feed [feature (JStr "a") (JFloat 4.2) (JInt 1700000000000)
                [JFloat 139.7; JFloat 35.6; JFloat 10];
        feature (JStr "b") (JFloat 5) (JInt 1700000000001) [JFloat 4; JFloat 5]]%float.

Definition feed_well_formed_only : json :=
  feed [feature (JStr "a") (JFloat 4.2) (JInt 1700000000000)
                [JFloat 139.7; JFloat 35.6; JFloat 10]]%float.

Definition feed_null_place : json :=
  feed [feature JNull (JFloat 4.2) (JInt 1700000000000)
                [JFloat 139.7; JFloat 35.6; JFloat 10]]%float.

(** ** Properties stated below *)

(** The test of line 72 on one row. *)
Definition positive (r : Row) : bool :=
  match number (mag r) with
  | Ok v => (0 <? v)%float
  | Raise _ => false
  end.

(** The invariant of the frame [load_data] returns: the magnitude is there,
    is a number, and is above zero. *)
Definition positive_magnitude (r : Row) : Prop :=
  isnull (mag r) = false /\ exists v, number (mag r) = Ok v /\ (0 <? v)%float = true.

Definition Normalized (df : DataFrame) : Prop := Forall positive_magnitude df.

(** The test of line 96 on one row: the magnitude is at least [t]. *)
Definition at_least (t : float) (r : Row) : bool :=
  match number (mag r) with
  | Ok v => (t <=? v)%float
  | Raise _ => false
  end.

(** A row computed on its own from its four selected cells. *)
Definition row_of (pd : Pandas) (s : Selected) : result Row :=
  lo ← subscript (sel_coordinates s) 0;
  la ← subscript (sel_coordinates s) 1;
  de ← subscript (sel_coordinates s) 2;
  da ← to_datetime_ms pd (sel_time s);
  Ok (mkRow (sel_place s) (sel_mag s) (sel_time s) (sel_coordinates s) lo la de da).

(** Epoch milliseconds whose nanosecond count fits [datetime64[ns]]. *)
Definition valid_epoch_ms (t : Z) : Prop := -9223372036854 <= t <= 9223372036854.

(** The way back from a timestamp, as the round trip of the specification
    reads it: the whole milliseconds in the nanosecond count. *)
Definition epoch_ms_of_timestamp (ns : Z) : Z := ns / 1000000.

(** The causes of a failed fetch: the request fails, the body is not JSON,
    the decoded body has no [features], [features] has a shape
    [json_normalize] rejects, or one of the four expected columns is
    missing from the normalized frame. *)
Inductive FetchError (requests_get : string -> result Response) (url : string) : exn -> Prop :=
  | network_failure (e : exn) :
      requests_get url = Raise e ->
      FetchError requests_get url e
  | non_json_body (response : Response) (e : exn) :
      requests_get url = Ok response ->
      response_json response = Raise e ->
      FetchError requests_get url e
  | missing_features (response : Response) (data : json) (e : exn) :
      requests_get url = Ok response ->
      response_json response = Ok data ->
      getitem data "features" = Raise e ->
      FetchError requests_get url e
  | rejected_features (response : Response) (data features : json) (e : exn) :
      requests_get url = Ok response ->
      response_json response = Ok data ->
      getitem data "features" = Ok features ->
      json_normalize features = Raise e ->
      FetchError requests_get url e
  | missing_columns (response : Response) (data features : json)
                    (records : list (list (string * json))) (e : exn) :
      requests_get url = Ok response ->
      response_json response = Ok data ->
      getitem data "features" = Ok features ->
      json_normalize features = Ok records ->
      select_columns records = Raise e ->
      FetchError requests_get url e.


(** Elements of the two presentation branches. *)
Definition is_chart (e : element) : bool :=
  match e with St_pydeck_chart _ _ _ => true | _ => false end.

Definition is_dataframe (e : element) : bool :=
  match e with St_dataframe _ => true | _ => false end.

(** [m] is the least, respectively the greatest, magnitude of the frame. *)
Definition least_magnitude (df : DataFrame) (m : float) : Prop :=
  (exists r, r ∈ df /\ number (mag r) = Ok m)
  /\ forall r, r ∈ df -> exists v, number (mag r) = Ok v /\ (m <=? v)%float = true.

Definition greatest_magnitude (df : DataFrame) (m : float) : Prop :=
  (exists r, r ∈ df /\ number (mag r) = Ok m)
  /\ forall r, r ∈ df -> exists v, number (mag r) = Ok v /\ (v <=? m)%float = true.

(** A feed whose one feature has the epoch value [-2^63]. *)
Definition feed_time_sentinel : json :=
  feed [feature (JStr "a") (JFloat 4.2) (JInt (-9223372036854775808))
                [JFloat 139.7; JFloat 35.6; JFloat 10]]%float.

(** A feed whose second feature has null coordinates. *)
Definition feed_null_coordinates : json :=
  feed [feature (JStr "a") (JFloat 4.2) (JInt 1700000000000)
                [JFloat 139.7; JFloat 35.6; JFloat 10];
        JObj [("type", JStr "Feature");
              ("properties", JObj [("mag", JFloat 5); ("place", JStr "b");
                                   ("time", JInt 1700000000001)]);
              ("geometry", JObj [("type", JStr "Point"); ("coordinates", JNull)])]]%string%float.

(** A feed whose first feature has an object where the place is expected. *)
Definition feed_object_place : json :=
  feed [feature (JObj [("name", JStr "a")]) (JFloat 4.2) (JInt 1700000000000)
                [JFloat 139.7; JFloat 35.6; JFloat 10];
        feature (JStr "b") (JFloat 5) (JInt 1700000000001)
                [JFloat 4; JFloat 5; JFloat 6]]%string%float.

Definition feed_text_magnitude : json :=
  feed [feature (JStr "a") (JFloat 4.2) (JInt 1700000000000)
                [JFloat 139.7; JFloat 35.6; JFloat 10];
        feature (JStr "b") (JStr "5.0") (JInt 1700000000001) [JFloat 4; JFloat 5; JFloat 6]]%float.

Definition feed_text_latitude : json :=
  feed [feature (JStr "a") (JFloat 4.2) (JInt 1700000000000)
                [JFloat 139.7; JFloat 35.6; JFloat 10];
        feature (JStr "b") (JFloat 5) (JInt 1700000000001)
                [JFloat 4; JStr "north"; JFloat 6]]%float.

Definition feed_without_magnitudes : json :=
  feed [JObj [("type", JStr "Feature");
              ("properties", JObj [("place", JStr "a"); ("time", JInt 1700000000000)]);
              ("geometry", JObj [("type", JStr "Point");
                                 ("coordinates", JArr [JFloat 139.7; JFloat 35.6; JFloat 10])])]]%string.

(** The frame [load_data] returns for [feed_4_5_6]. *)
Definition frame_4_5_6 : DataFrame :=
  Eval vm_compute in (load_data pandas_ns (serving feed_4_5_6) "u").1.

(** ** Well-formed features *)

(** What the script reads of one event of the provider's feed: a place, a
    magnitude, epoch milliseconds (or null) and a coordinate sequence. *)
Record Quake : Type := mkQuake {
  q_place : json;
  q_mag : json;
  q_time : option Z;
  q_coordinates : list json;
}.

Definition q_time_json (q : Quake) : json :=
  match q_time q with
  | Some t => JInt t
  | None => JNull
  end.

Definition feature_of (q : Quake) : json :=
  feature (q_place q) (q_mag q) (q_time_json q) (q_coordinates q).

(** The place is not an object, the magnitude is null or a number, the time
    is null or within the range of [datetime64[ns]], and there are at least
    three coordinates. *)
Definition well_formed (q : Quake) : Prop :=
  is_dict (q_place q) = false
  /\ (exists v, number (q_mag q) = Ok v)
  /\ match q_time q with Some t => valid_epoch_ms t | None => True end
  /\ (3 <= length (q_coordinates q))%nat.

(** The row of a well-formed event. *)
Definition row_of_quake (q : Quake) : Row :=
  mkRow (q_place q) (q_mag q) (q_time_json q) (JArr (q_coordinates q))
        (List.nth 0 (q_coordinates q) JNull)
        (List.nth 1 (q_coordinates q) JNull)
        (List.nth 2 (q_coordinates q) JNull)
        (match q_time q with Some t => Timestamp (t * 1000000) | None => NaT end).

(** The magnitude of the event is above zero. *)
Definition q_positive (q : Quake) : bool :=
  match number (q_mag q) with
  | Ok v => (0 <? v)%float
  | Raise _ => false
  end.

(** ** The select box *)

(** The options of the select box, lines 28-31, and the dict of lines 33-38
    as its items. *)
Definition timeframe_options : list string :=
  ["Past Hour"; "Past Day"; "Past 7 Days"; "Past 30 Days"]%string.

Definition timeframe_urls_items : list (string * string) :=
  [("Past Hour", "https://earthquake.usgs.gov/earthquakes/feed/v1.0/summary/all_hour.geojson");
   ("Past Day", "https://earthquake.usgs.gov/earthquakes/feed/v1.0/summary/all_day.geojson");
   ("Past 7 Days", "https://earthquake.usgs.gov/earthquakes/feed/v1.0/summary/all_week.geojson");
   ("Past 30 Days", "https://earthquake.usgs.gov/earthquakes/feed/v1.0/summary/all_month.geojson")]%string.

(** [timeframe_urls[timeframe]] on the dict: the value of the key, or no
    value (a [KeyError]). *)
Fixpoint urls_getitem (items : list (string * string)) (timeframe : string) : option string :=
  match items with
  | [] => None
  | (k, v) :: rest => if String.eqb timeframe k then Some v else urls_getitem rest timeframe
  end.

(** The label of each option. *)
Definition timeframe_label (timeframe : Timeframe) : string :=
  match timeframe with
  | PastHour => "Past Hour"
  | PastDay => "Past Day"
  | Past7Days => "Past 7 Days"
  | Past30Days => "Past 30 Days"
  end.

(** ** The order of the table *)

(** The date [a] is at least as recent as the date [b]; a missing date
    counts as the least recent. *)
Definition at_least_as_recent (a b : datetime) : Prop :=
  match a, b with
  | Timestamp x, Timestamp y => y <= x
  | _, NaT => True
  | NaT, Timestamp _ => False
  end.

(** What [sort_values("date", ascending=False)] promises: the same rows,
    each as often as before, every row at least as recent as all rows
    after it. *)
Definition sorts_by_date_descending (sort : list TableRow -> list TableRow) : Prop :=
  forall rows : list TableRow,
    Permutation (sort rows) rows
    /\ StronglySorted (fun a b => at_least_as_recent (table_date a) (table_date b)) (sort rows).

(** * Proofs *)

(** ** The order of binary64 *)

Section Binary64Order.

Lemma SFleb_trans (a b c : spec_float) :
  SFleb a b = true -> SFleb b c = true -> SFleb a c = true.
Proof.
  unfold SFleb.
  destruct a as [sa|sa| |sa ma ea], b as [sb|sb| |sb mb eb], c as [sc|sc| |sc mc ec];
    try destruct sa; try destruct sb; try destruct sc; simpl; try done;
    change (Pos.compare_cont Eq) with Pos.compare;
    destruct (Z.compare_spec ea eb), (Z.compare_spec eb ec), (Z.compare_spec ea ec);
    simpl; try done; try lia;
    destruct (Pos.compare_spec ma mb), (Pos.compare_spec mb mc), (Pos.compare_spec ma mc);
    simpl; try done; try lia.
Qed.




Lemma is_nan_Prim2SF (x : float) : is_nan x = true <-> Prim2SF x = S754_nan.
Proof.
  split.
  - intros H. unfold Prim2SF. by rewrite H.
  - intros H. unfold is_nan. rewrite FloatAxioms.eqb_spec, H. done.
Qed.


Lemma leb_trans (a b c : float) :
  (a <=? b)%float = true -> (b <=? c)%float = true -> (a <=? c)%float = true.
Proof. rewrite !FloatAxioms.leb_spec. apply SFleb_trans. Qed.




Lemma ltb_not_nan_r (a b : float) : (a <? b)%float = true -> is_nan b = false.
Proof.
  rewrite FloatAxioms.ltb_spec. intros H. destruct (is_nan b) eqn:E; [|done].
  apply is_nan_Prim2SF in E. rewrite E in H. unfold SFltb in H.
  destruct (Prim2SF a); done.
Qed.



End Binary64Order.

(** ** Results, columns and masks *)

Lemma bind_Ok {A B : Type} (m : result A) (f : A -> result B) (b : B) :
  m ≫= f = Ok b <-> exists a, m = Ok a /\ f a = Ok b.
Proof.
  destruct m as [a|e]; simpl; split.
  - intros H. by exists a.
  - by intros (a' & [= <-] & H).
  - done.
  - by intros (a' & [=] & _).
Qed.

Ltac inv_bind H :=
  repeat (let a := fresh "x" in
          let E := fresh "E" in
          apply bind_Ok in H as (a & E & H)).

Lemma apply_Ok_Forall2 {A B : Type} (f : A -> result B) (col : list A) (out : list B) :
  apply f col = Ok out -> Forall2 (fun x y => f x = Ok y) col out.
Proof.
  revert out. induction col as [|x col IH]; intros out H; simpl in H.
  - injection H as <-. constructor.
  - inv_bind H. injection H as <-. constructor; auto.
Qed.

Lemma Forall2_apply_Ok {A B : Type} (f : A -> result B) (col : list A) (out : list B) :
  Forall2 (fun x y => f x = Ok y) col out -> apply f col = Ok out.
Proof.
  induction 1 as [|x y col out Hxy _ IH]; simpl; [done|].
  rewrite Hxy. simpl. rewrite IH. done.
Qed.

Lemma apply_Ok_elem {A B : Type} (f : A -> result B) (col : list A) (out : list B) (x : A) :
  apply f col = Ok out -> x ∈ col -> exists y, f x = Ok y.
Proof.
  intros H Hx. apply apply_Ok_Forall2 in H.
  induction H as [|x' y col out Hxy _ IH]; inversion Hx; subst; eauto.
Qed.

Lemma apply_fmap {A B C : Type} (f : B -> result C) (g : A -> B) (l : list A) :
  apply f (g <$> l) = apply (fun x => f (g x)) l.
Proof. induction l as [|x l IH]; csimpl; [done|]. by rewrite IH. Qed.

Lemma boolean_index_fmap {A : Type} (p : A -> bool) (l : list A) :
  boolean_index l (p <$> l) = List.filter p l.
Proof. induction l as [|x l IH]; csimpl; [done|]. rewrite IH. done. Qed.

(** A mask computed cell by cell selects what the cell test accepts. *)
Lemma boolean_index_apply {A : Type} (f : A -> result bool) (l : list A) (mask : list bool) :
  apply f l = Ok mask ->
  boolean_index l mask = List.filter (fun x => match f x with Ok b => b | Raise _ => false end) l.
Proof.
  revert mask. induction l as [|x l IH]; intros mask H; simpl in H.
  - by injection H as <-.
  - inv_bind H. injection H as <-. simpl. rewrite E. by rewrite (IH _ E0).
Qed.

Lemma elem_of_filter {A : Type} (p : A -> bool) (l : list A) (x : A) :
  x ∈ List.filter p l <-> x ∈ l /\ p x = true.
Proof. rewrite !list_elem_of_In. apply filter_In. Qed.

Lemma filter_sublist {A : Type} (p : A -> bool) (l : list A) :
  List.filter p l `sublist_of` l.
Proof.
  induction l as [|x l IH]; simpl; [done|].
  destruct (p x); by constructor.
Qed.

Lemma filter_sublist_mono {A : Type} (p q : A -> bool) (l : list A) :
  (forall x, x ∈ l -> q x = true -> p x = true) ->
  List.filter q l `sublist_of` List.filter p l.
Proof.
  induction l as [|x l IH]; intros H; simpl; [done|].
  assert (List.filter q l `sublist_of` List.filter p l) as IH'.
  { apply IH. intros y Hy. apply H. by right. }
  destruct (q x) eqn:Hq.
  - rewrite (H x) by (done || left). by constructor.
  - destruct (p x); [by constructor | done].
Qed.

Lemma apply_Raise {A B : Type} (f : A -> result B) (l : list A) (x : A) (e : exn) :
  x ∈ l ->
  f x = Raise e ->
  (forall y e', f y = Raise e' -> e' = e) ->
  apply f l = Raise e.
Proof.
  intros Hx Hfx Hall. induction Hx as [x l|x y l _ IH]; simpl.
  - by rewrite Hfx.
  - destruct (f y) as [b|e'] eqn:Hy; simpl.
    + by rewrite IH.
    + by rewrite (Hall _ _ Hy).
Qed.

(** ** The shape of what [load_data] returns *)

(** When no column raises, building the columns one after the other gives
    the rows one would get row by row. *)
Lemma assign_row_of (pd : Pandas) (sel : list Selected) (lons lats depths : list json)
    (dates : list datetime) :
  apply (fun x => subscript x 0) (sel_coordinates <$> sel) = Ok lons ->
  apply (fun x => subscript x 1) (sel_coordinates <$> sel) = Ok lats ->
  apply (fun x => subscript x 2) (sel_coordinates <$> sel) = Ok depths ->
  to_datetime pd (sel_time <$> sel) = Ok dates ->
  Forall2 (fun s r => row_of pd s = Ok r) sel (assign sel lons lats depths dates).
Proof.
  unfold to_datetime. rewrite !apply_fmap.
  revert lons lats depths dates.
  induction sel as [|s sel IH]; intros lons lats depths dates H0 H1 H2 H3; simpl in *.
  - constructor.
  - apply bind_Ok in H0 as (lo & Elo & H0). apply bind_Ok in H0 as (lons' & Elons & [= <-]).
    apply bind_Ok in H1 as (la & Ela & H1). apply bind_Ok in H1 as (lats' & Elats & [= <-]).
    apply bind_Ok in H2 as (de & Ede & H2). apply bind_Ok in H2 as (depths' & Edepths & [= <-]).
    apply bind_Ok in H3 as (da & Eda & H3). apply bind_Ok in H3 as (dates' & Edates & [= <-]).
    constructor; [|by apply IH].
    unfold row_of. rewrite Elo, Ela, Ede, Eda. done.
Qed.

Lemma load_data_try_Ok (pd : Pandas) (requests_get : string -> result Response)
    (url : string) (df : DataFrame) :
  load_data_try pd requests_get url = Ok df ->
  exists response data features records sel rows,
    requests_get url = Ok response
    /\ response_json response = Ok data
    /\ getitem data "features" = Ok features
    /\ json_normalize features = Ok records
    /\ select_columns records = Ok sel
    /\ Forall2 (fun s r => row_of pd s = Ok r) sel rows
    /\ df = List.filter positive (List.filter (fun r => negb (isnull (mag r))) rows).
Proof.
  unfold load_data_try. intros H.
  apply bind_Ok in H as (response & Hget & H).
  apply bind_Ok in H as (data & Hjson & H).
  apply bind_Ok in H as (features & Hfeatures & H).
  apply bind_Ok in H as (records & Hnorm & H).
  apply bind_Ok in H as (sel & Hsel & H).
  apply bind_Ok in H as (lons & Hlon & H).
  apply bind_Ok in H as (lats & Hlat & H).
  apply bind_Ok in H as (depths & Hdepth & H).
  apply bind_Ok in H as (dates & Hdate & H).
  apply bind_Ok in H as (mask & Hmask & H).
  exists response, data, features, records, sel, (assign sel lons lats depths dates).
  repeat split; try done.
  - by apply assign_row_of.
  - unfold gt, notnull in *. rewrite <- list_fmap_compose in *.
    rewrite boolean_index_fmap in *. rewrite apply_fmap in Hmask.
    injection H as <-. rewrite (boolean_index_apply _ _ _ Hmask).
    apply List.filter_ext. intros r. unfold positive.
    destruct (number (mag r)); done.
Qed.

Lemma positive_spec (r : Row) :
  positive r = true <-> exists v, number (mag r) = Ok v /\ (0 <? v)%float = true.
Proof.
  unfold positive. destruct (number (mag r)) as [v|e]; split.
  - eauto.
  - by intros (v' & [= <-] & H).
  - done.
  - by intros (v' & [=] & _).
Qed.

Lemma load_data_try_Normalized (pd : Pandas) (requests_get : string -> result Response)
    (url : string)
    (df : DataFrame) :
  load_data_try pd requests_get url = Ok df -> Normalized df.
Proof.
  intros H. apply load_data_try_Ok in H as (_ & _ & _ & _ & _ & rows & _ & _ & _ & _ & _ & _ & ->).
  apply Forall_forall. intros r Hr.
  apply elem_of_filter in Hr as [Hr Hpos]. apply elem_of_filter in Hr as [_ Hnull].
  split; [by apply negb_true_iff | by apply positive_spec].
Qed.

Lemma load_data_Normalized (pd : Pandas) (requests_get : string -> result Response) (url : string) :
  Normalized (load_data pd requests_get url).1.
Proof.
  unfold load_data. destruct (load_data_try pd requests_get url) as [df|e] eqn:E; simpl.
  - by eapply load_data_try_Normalized.
  - constructor.
Qed.

Lemma apply_pure {A B : Type} (f : A -> result B) (g : A -> B) (l : list A) :
  Forall (fun x => f x = Ok (g x)) l -> apply f l = Ok (g <$> l).
Proof.
  induction 1 as [|x l Hx _ IH]; csimpl; [done|].
  rewrite Hx. simpl. rewrite IH. done.
Qed.

(** The converse of [assign_row_of]: rows that can be computed one by one
    are what the column assignments build. *)
Lemma row_of_columns (pd : Pandas) (sel : list Selected) (rows : list Row) :
  Forall2 (fun s r => row_of pd s = Ok r) sel rows ->
  apply (fun x => subscript x 0) (sel_coordinates <$> sel) = Ok (lon <$> rows)
  /\ apply (fun x => subscript x 1) (sel_coordinates <$> sel) = Ok (lat <$> rows)
  /\ apply (fun x => subscript x 2) (sel_coordinates <$> sel) = Ok (depth <$> rows)
  /\ to_datetime pd (sel_time <$> sel) = Ok (date <$> rows)
  /\ assign sel (lon <$> rows) (lat <$> rows) (depth <$> rows) (date <$> rows) = rows.
Proof.
  unfold to_datetime. rewrite !apply_fmap.
  induction 1 as [|s r sel rows Hr _ (IH0 & IH1 & IH2 & IH3 & IH4)]; csimpl; [done|].
  unfold row_of in Hr.
  apply bind_Ok in Hr as (lo & Elo & Hr). apply bind_Ok in Hr as (la & Ela & Hr).
  apply bind_Ok in Hr as (de & Ede & Hr). apply bind_Ok in Hr as (da & Eda & [= <-]).
  rewrite Elo, Ela, Ede, Eda, IH0, IH1, IH2, IH3, IH4. done.
Qed.

Lemma load_data_try_complete (pd : Pandas) (requests_get : string -> result Response) (url : string)
    (response : Response) (data features : json) (records : list (list (string * json)))
    (sel : list Selected) (rows : list Row) :
  requests_get url = Ok response ->
  response_json response = Ok data ->
  getitem data "features" = Ok features ->
  json_normalize features = Ok records ->
  select_columns records = Ok sel ->
  Forall2 (fun s r => row_of pd s = Ok r) sel rows ->
  Forall (fun r => isnull (mag r) = false -> exists v, number (mag r) = Ok v) rows ->
  load_data_try pd requests_get url
  = Ok (List.filter positive (List.filter (fun r => negb (isnull (mag r))) rows)).
Proof.
  intros Hget Hjson Hfeatures Hnorm Hsel Hrows Hnum.
  apply row_of_columns in Hrows as (H0 & H1 & H2 & H3 & H4).
  unfold load_data_try. rewrite Hget. simpl. rewrite Hjson. simpl. rewrite Hfeatures. simpl.
  rewrite Hnorm. simpl. rewrite Hsel. simpl. rewrite H0. simpl. rewrite H1. simpl.
  rewrite H2. simpl. rewrite H3. simpl. rewrite H4.
  unfold notnull, gt. rewrite <- list_fmap_compose, boolean_index_fmap, apply_fmap.
  rewrite (apply_pure _ positive).
  - simpl. by rewrite boolean_index_fmap.
  - apply Forall_forall. intros r Hr. apply elem_of_filter in Hr as [Hr Hnull].
    rewrite Forall_forall in Hnum. destruct (Hnum r Hr) as [v Hv].
    { by apply negb_true_iff. }
    unfold positive. rewrite Hv. done.
Qed.

(** ** Well-formed features *)

Lemma to_datetime_ms_int (pd : Pandas) (t : Z) :
  valid_epoch_ms t -> to_datetime_ms pd (JInt t) = Ok (Timestamp (t * 1000000)).
Proof.
  unfold valid_epoch_ms, to_datetime_ms, fits_ns, iNaT, Timestamp_min, Timestamp_max.
  intros H.
  destruct (Z.eqb_spec t (- 2 ^ 63)) as [->|_]; [lia|].
  rewrite (andb_true_intro (b1 := _ <=? _)); [done|]. split; apply Z.leb_le; lia.
Qed.

Lemma normalise_json_scalar (k : string) (v : json) :
  is_dict v = false -> normalise_json k v = [(k, v)].
Proof. by destruct v. Qed.

Lemma selected_of_feature (pl mg tm : json) (coords : list json) :
  is_dict pl = false -> is_dict mg = false -> is_dict tm = false ->
  selected_of (simple_json_normalize (feature pl mg tm coords)) = mkSelected pl mg tm (JArr coords).
Proof.
  intros Hpl Hmg Htm. unfold feature, simple_json_normalize, normalise_json_ordered.
  cbn [List.filter is_dict snd negb app normalise_json].
  rewrite !normalise_json_scalar by done. reflexivity.
Qed.

Lemma has_column_feature (pl mg tm : json) (coords : list json) (c : string)
    (records : list (list (string * json))) :
  is_dict pl = false -> is_dict mg = false -> is_dict tm = false ->
  c = "properties.place" \/ c = "properties.mag" \/ c = "properties.time"
    \/ c = "geometry.coordinates" ->
  has_column c (simple_json_normalize (feature pl mg tm coords) :: records) = true.
Proof.
  intros Hpl Hmg Htm Hc. unfold feature, simple_json_normalize, normalise_json_ordered.
  cbn [List.filter is_dict snd negb app normalise_json].
  rewrite !normalise_json_scalar by done.
  destruct Hc as [->|[->|[->| ->]]]; reflexivity.
Qed.

(** ** The normalizer's guarantee *)

(** C1. Whatever the provider answers, every row of the frame [load_data]
    returns has a magnitude that is not null, is a number and is strictly
    above zero. In particular, for a feed of three well-formed features with
    magnitudes null, -1.0 and 4.2 (any places that are not objects, any epoch
    milliseconds in range, any coordinate triples), the frame has exactly one
    row, the one of the third feature with magnitude 4.2, and nothing is
    shown. *)
Theorem load_data_magnitude_positive :
  (forall (pd : Pandas) (requests_get : string -> result Response) (url : string) (r : Row),
      r ∈ (load_data pd requests_get url).1 ->
      isnull (mag r) = false
      /\ exists v, number (mag r) = Ok v /\ (0 <? v)%float = true)
  /\ (forall (pd : Pandas) (url : string) (pl1 pl2 pl3 : json) (t1 t2 t3 : Z)
             (x1 y1 z1 x2 y2 z2 x3 y3 z3 : json),
      is_dict pl1 = false -> is_dict pl2 = false -> is_dict pl3 = false ->
      valid_epoch_ms t1 -> valid_epoch_ms t2 -> valid_epoch_ms t3 ->
      load_data pd
        (serving (feed [feature pl1 JNull (JInt t1) [x1; y1; z1];
                        feature pl2 (JFloat (-1)) (JInt t2) [x2; y2; z2];
                        feature pl3 (JFloat 4.2) (JInt t3) [x3; y3; z3]])) url
      = ([mkRow pl3 (JFloat 4.2) (JInt t3) (JArr [x3; y3; z3]) x3 y3 z3
                (Timestamp (t3 * 1000000))], [])).
Proof.
  split.
  - intros pd requests_get url r Hr.
    pose proof (load_data_Normalized pd requests_get url) as Hn.
    unfold Normalized in Hn. rewrite Forall_forall in Hn. exact (Hn r Hr).
  - intros pd url pl1 pl2 pl3 t1 t2 t3 x1 y1 z1 x2 y2 z2 x3 y3 z3 Hp1 Hp2 Hp3 Ht1 Ht2 Ht3.
    unfold load_data.
    erewrite load_data_try_complete
      with (rows := [mkRow pl1 JNull (JInt t1) (JArr [x1; y1; z1]) x1 y1 z1 (Timestamp (t1 * 1000000));
                     mkRow pl2 (JFloat (-1)) (JInt t2) (JArr [x2; y2; z2]) x2 y2 z2 (Timestamp (t2 * 1000000));
                     mkRow pl3 (JFloat 4.2) (JInt t3) (JArr [x3; y3; z3]) x3 y3 z3 (Timestamp (t3 * 1000000))]).
    + reflexivity.
    + reflexivity.
    + reflexivity.
    + reflexivity.
    + reflexivity.
    + unfold select_columns. rewrite !fmap_cons.
      rewrite !has_column_feature by (done || tauto). reflexivity.
    + repeat (apply List.Forall2_cons); try apply Forall2_nil_2;
        (rewrite selected_of_feature by done);
        unfold row_of; cbn [sel_place sel_mag sel_time sel_coordinates];
        (rewrite to_datetime_ms_int by done); reflexivity.
    + repeat constructor; simpl; eauto.
Qed.

Lemma load_data_magnitude_positive_witness :
  isnull (JFloat 4.2) = false
  /\ exists v, number (JFloat 4.2) = Ok v /\ (0 <? v)%float = true.
Proof.
  apply (proj1 load_data_magnitude_positive pandas_ns (serving feed_null_neg_pos) "u"%string
           (mkRow (JStr "c") (JFloat 4.2) (JInt 1700000000002)
                  (JArr [JFloat 139.7; JFloat 35.6; JFloat 10]) (JFloat 139.7) (JFloat 35.6)
                  (JFloat 10) (Timestamp 1700000000002000000))).
  vm_compute. left.
Defined.

(** ** The filter stage *)

Lemma filter_stage_Ok (df df' : DataFrame) (t : float) :
  filter_stage df t = Ok df' -> df' = List.filter (at_least t) df.
Proof.
  unfold filter_stage, ge. rewrite apply_fmap. intros H.
  apply bind_Ok in H as (mask & Hmask & [= <-]).
  rewrite (boolean_index_apply _ _ _ Hmask).
  apply List.filter_ext. intros r. unfold at_least. destruct (number (mag r)); done.
Qed.

Lemma filter_stage_Normalized (df : DataFrame) (t : float) :
  Normalized df -> filter_stage df t = Ok (List.filter (at_least t) df).
Proof.
  intros Hn. unfold filter_stage, ge. rewrite apply_fmap.
  rewrite (apply_pure _ (at_least t)).
  - simpl. by rewrite boolean_index_fmap.
  - eapply Forall_impl; [exact Hn|]. intros r (_ & v & Hv & _).
    unfold at_least. simpl. rewrite Hv. done.
Qed.

Lemma at_least_spec (t : float) (r : Row) :
  at_least t r = true <-> exists v, number (mag r) = Ok v /\ (t <=? v)%float = true.
Proof.
  unfold at_least. destruct (number (mag r)) as [v|e]; split.
  - eauto.
  - by intros (v' & [= <-] & H).
  - done.
  - by intros (v' & [=] & _).
Qed.

Lemma Normalized_filter (p : Row -> bool) (df : DataFrame) :
  Normalized df -> Normalized (List.filter p df).
Proof.
  unfold Normalized. rewrite !Forall_forall. intros H r Hr.
  apply elem_of_filter in Hr as [Hr _]. auto.
Qed.

(** C2. On a normalized frame the filter stage succeeds for every threshold
    [t], and what it returns is the input filtered by "magnitude >= t": the
    rows of the input that pass the test, in the input's order (a
    subsequence of it), and no others. The stage is a function of the frame
    and the threshold: it yields a new frame and the input is the same value
    afterwards. In particular, three rows of magnitudes 4.0, 5.0 and 6.5
    filtered at 5.0 give exactly the second and the third row. *)
Theorem filter_stage_subsequence (df : DataFrame) (t : float) :
  Normalized df ->
  filter_stage df t = Ok (List.filter (at_least t) df)
  /\ List.filter (at_least t) df `sublist_of` df
  /\ (forall r : Row,
        r ∈ List.filter (at_least t) df
        <-> r ∈ df /\ exists v, number (mag r) = Ok v /\ (t <=? v)%float = true)
  /\ (forall r1 r2 r3 : Row,
        mag r1 = JFloat 4 -> mag r2 = JFloat 5 -> mag r3 = JFloat 6.5 ->
        filter_stage [r1; r2; r3] 5 = Ok [r2; r3]).
Proof.
  intros Hn. split; [by apply filter_stage_Normalized|].
  split; [apply filter_sublist|]. split.
  - intros r. rewrite elem_of_filter, at_least_spec. done.
  - intros r1 r2 r3 H1 H2 H3. unfold filter_stage, ge. simpl.
    rewrite H1, H2, H3. reflexivity.
Qed.

Lemma filter_stage_subsequence_witness :
  filter_stage (load_data pandas_ns (serving feed_null_neg_pos) "u").1 2.5
  = Ok (List.filter (at_least 2.5) (load_data pandas_ns (serving feed_null_neg_pos) "u").1).
Proof.
  apply (filter_stage_subsequence (load_data pandas_ns (serving feed_null_neg_pos) "u").1 2.5).
  repeat constructor; vm_compute; eauto.
Defined.

(** C10. For thresholds [t1 <= t2], whatever the filter stage returns at
    [t2] is a subsequence of what it returns at [t1], so every row kept at
    the higher threshold is kept at the lower one; on a normalized frame
    both filters do return a frame. *)
Theorem filter_stage_monotone (df : DataFrame) (t1 t2 : float) :
  (t1 <=? t2)%float = true ->
  (forall df1 df2 : DataFrame,
      filter_stage df t1 = Ok df1 -> filter_stage df t2 = Ok df2 ->
      df2 `sublist_of` df1 /\ forall r : Row, r ∈ df2 -> r ∈ df1)
  /\ (Normalized df ->
      exists df1 df2 : DataFrame,
        filter_stage df t1 = Ok df1 /\ filter_stage df t2 = Ok df2).
Proof.
  intros Hle. split.
  - intros df1 df2 H1 H2.
    apply filter_stage_Ok in H1 as ->. apply filter_stage_Ok in H2 as ->.
    assert (List.filter (at_least t2) df `sublist_of` List.filter (at_least t1) df) as Hsub.
    { apply filter_sublist_mono. intros r _ Hr.
      apply at_least_spec in Hr as (v & Hv & Hr). apply at_least_spec.
      exists v. split; [done|]. by eapply leb_trans. }
    split; [done|]. intros r Hr. by eapply elem_of_sublist.
  - intros Hn. eexists _, _. split; by apply filter_stage_Normalized.
Qed.

Lemma filter_stage_monotone_witness :
  exists df1 df2 : DataFrame,
    filter_stage (load_data pandas_ns (serving feed_null_neg_pos) "u").1 2.5 = Ok df1
    /\ filter_stage (load_data pandas_ns (serving feed_null_neg_pos) "u").1 5 = Ok df2.
Proof.
  apply (filter_stage_monotone (load_data pandas_ns (serving feed_null_neg_pos) "u").1 2.5 5).
  - reflexivity.
  - repeat constructor; vm_compute; eauto.
Defined.

(** ** Where a row comes from *)

Lemma Forall2_elem_of_r {A B : Type} (P : A -> B -> Prop) (l : list A) (k : list B) (y : B) :
  Forall2 P l k -> y ∈ k -> exists x, x ∈ l /\ P x y.
Proof.
  induction 1 as [|x y' l k Hxy _ IH]; intros Hy.
  - by apply elem_of_nil in Hy.
  - apply elem_of_cons in Hy as [->|Hy].
    + exists x. split; [left|done].
    + destruct (IH Hy) as (x' & Hx' & HP). exists x'. split; [by right|done].
Qed.

Lemma Forall2_elem_of_l {A B : Type} (P : A -> B -> Prop) (l : list A) (k : list B) (x : A) :
  Forall2 P l k -> x ∈ l -> exists y, y ∈ k /\ P x y.
Proof.
  induction 1 as [|x' y l k Hxy _ IH]; intros Hx.
  - by apply elem_of_nil in Hx.
  - apply elem_of_cons in Hx as [->|Hx].
    + exists y. split; [left|done].
    + destruct (IH Hx) as (y' & Hy' & HP). exists y'. split; [by right|done].
Qed.

Lemma select_columns_Ok (records : list (list (string * json))) (sel : list Selected) :
  select_columns records = Ok sel -> sel = selected_of <$> records.
Proof. unfold select_columns. destruct (_ && _); [by intros [= <-] | done]. Qed.

Lemma row_of_Ok (pd : Pandas) (s : Selected) (r : Row) :
  row_of pd s = Ok r ->
  place r = sel_place s /\ mag r = sel_mag s /\ time r = sel_time s
  /\ coordinates r = sel_coordinates s
  /\ subscript (coordinates r) 0 = Ok (lon r)
  /\ subscript (coordinates r) 1 = Ok (lat r)
  /\ subscript (coordinates r) 2 = Ok (depth r)
  /\ to_datetime_ms pd (time r) = Ok (date r).
Proof.
  unfold row_of. intros H.
  apply bind_Ok in H as (lo & Elo & H). apply bind_Ok in H as (la & Ela & H).
  apply bind_Ok in H as (de & Ede & H). apply bind_Ok in H as (da & Eda & [= <-]).
  simpl. done.
Qed.

(** Every row [load_data] returns is the row of one record of the
    normalized feed. *)
Lemma load_data_row_source (pd : Pandas) (requests_get : string -> result Response)
    (url : string) (r : Row) :
  r ∈ (load_data pd requests_get url).1 ->
  exists response data features records record,
    requests_get url = Ok response
    /\ response_json response = Ok data
    /\ getitem data "features" = Ok features
    /\ json_normalize features = Ok records
    /\ record ∈ records
    /\ row_of pd (selected_of record) = Ok r.
Proof.
  unfold load_data. destruct (load_data_try pd requests_get url) as [df|e] eqn:E; simpl.
  - intros Hr.
    apply load_data_try_Ok in E
      as (response & data & features & records & sel & rows & ? & ? & ? & ? & Hsel & Hrows & ->).
    apply elem_of_filter in Hr as [Hr _]. apply elem_of_filter in Hr as [Hr _].
    apply select_columns_Ok in Hsel as ->.
    destruct (Forall2_elem_of_r _ _ _ _ Hrows Hr) as (s & Hs & Hrow).
    apply list_elem_of_fmap in Hs as (record & -> & Hrecord).
    by exists response, data, features, records, record.
  - intros Hr. by apply elem_of_nil in Hr.
Qed.

(** ** Malformed features *)

Lemma subscript_short (items : list json) :
  (length items < 3)%nat -> subscript (JArr items) 2 = Raise IndexError.
Proof.
  intros H. simpl. destruct items as [|a [|b [|c items]]]; simpl in *; (done || lia).
Qed.

(** A feed with one well-formed feature and one whose coordinates have two
    elements: nothing is returned, the well-formed feature's row included,
    although the well-formed feature on its own gives its row. *)
Lemma short_coordinates_empty_the_frame :
  load_data pandas_ns (serving feed_short_coordinates) "u" = ([], [St_error IndexError])
  /\ load_data pandas_ns (serving feed_well_formed_only) "u"
     = ([mkRow (JStr "a") (JFloat 4.2) (JInt 1700000000000)
               (JArr [JFloat 139.7; JFloat 35.6; JFloat 10]) (JFloat 139.7) (JFloat 35.6)
               (JFloat 10) (Timestamp 1700000000000000000)], []).
Proof. split; vm_compute; reflexivity. Qed.

(** A magnitude that cannot be compared with a number makes line 72 raise. *)
Lemma text_magnitude_raises (pd : Pandas) (requests_get : string -> result Response) (url : string)
    (response : Response) (data features : json) (records : list (list (string * json)))
    (sel : list Selected) (rows : list Row) (r : Row) :
  requests_get url = Ok response ->
  response_json response = Ok data ->
  getitem data "features" = Ok features ->
  json_normalize features = Ok records ->
  select_columns records = Ok sel ->
  Forall2 (fun s r => row_of pd s = Ok r) sel rows ->
  r ∈ rows ->
  (exists s, mag r = JStr s) \/ (exists items, mag r = JArr items) ->
  load_data pd requests_get url = ([], [St_error TypeError]).
Proof.
  intros Hget Hjson Hfeatures Hnorm Hsel Hrows Hr Hmag.
  apply row_of_columns in Hrows as (H0 & H1 & H2 & H3 & H4).
  unfold load_data, load_data_try.
  rewrite Hget. simpl. rewrite Hjson. simpl. rewrite Hfeatures. simpl.
  rewrite Hnorm. simpl. rewrite Hsel. simpl. rewrite H0. simpl. rewrite H1. simpl.
  rewrite H2. simpl. rewrite H3. simpl. rewrite H4.
  unfold notnull, gt. rewrite <- list_fmap_compose, boolean_index_fmap, apply_fmap.
  rewrite (apply_Raise _ _ r TypeError); [done| | |].
  - apply elem_of_filter. split; [done|]. unfold compose.
    destruct Hmag as [[s Hs]|[items Hs]]; by rewrite Hs.
  - cbv beta. destruct Hmag as [[s Hs]|[items Hs]]; by rewrite Hs.
  - intros y e'. cbv beta. destruct (mag y); simpl; congruence.
Qed.

(** C3, as the code has it. A feature is skipped on its own only for a
    magnitude that is null, missing or a number not above zero: when the
    row of every feature can be built and every magnitude that is not null
    is a number, [load_data] returns exactly the rows whose magnitude is not
    null and above zero, in feed order, and shows nothing. Other malformed
    features are not skipped. A feature with a coordinate sequence of fewer
    than three elements, and likewise a feature whose magnitude is text or a
    list, makes an exception end the [try] block: the error is shown and
    the frame returned is empty, so the rows of all other features are lost
    with it. *)
Theorem malformed_feature_policy :
  (forall (pd : Pandas) (requests_get : string -> result Response)
          (url : string) (response : Response)
          (data features : json) (records : list (list (string * json)))
          (sel : list Selected) (rows : list Row),
      requests_get url = Ok response ->
      response_json response = Ok data ->
      getitem data "features" = Ok features ->
      json_normalize features = Ok records ->
      select_columns records = Ok sel ->
      Forall2 (fun s r => row_of pd s = Ok r) sel rows ->
      Forall (fun r => isnull (mag r) = false -> exists v, number (mag r) = Ok v) rows ->
      load_data pd requests_get url
      = (List.filter positive (List.filter (fun r => negb (isnull (mag r))) rows), []))
  /\ (forall (pd : Pandas) (requests_get : string -> result Response)
             (url : string) (response : Response)
             (data f : json) (features items : list json),
      requests_get url = Ok response ->
      response_json response = Ok data ->
      getitem data "features" = Ok (JArr features) ->
      f ∈ features ->
      cell "geometry.coordinates" (simple_json_normalize f) = JArr items ->
      (length items < 3)%nat ->
      exists e, load_data pd requests_get url = ([], [St_error e]))
  /\ (forall (pd : Pandas) (requests_get : string -> result Response)
             (url : string) (response : Response)
             (data f : json) (features : list json),
      requests_get url = Ok response ->
      response_json response = Ok data ->
      getitem data "features" = Ok (JArr features) ->
      f ∈ features ->
      (exists s, cell "properties.mag" (simple_json_normalize f) = JStr s)
      \/ (exists items, cell "properties.mag" (simple_json_normalize f) = JArr items) ->
      exists e, load_data pd requests_get url = ([], [St_error e])).
Proof.
  split; [|split].
  - intros pd requests_get url response data features records sel rows
           Hget Hjson Hfeatures Hnorm Hsel Hrows Hnum.
    unfold load_data.
    by rewrite (load_data_try_complete _ _ _ _ _ _ _ _ _
                  Hget Hjson Hfeatures Hnorm Hsel Hrows Hnum).
  - intros pd requests_get url response data f features items
           Hget Hjson Hfeatures Hf Hcell Hshort.
    unfold load_data.
    destruct (load_data_try pd requests_get url) as [df|e] eqn:E; [|by exists e].
    exfalso.
    apply load_data_try_Ok in E
      as (response' & data' & features' & records & sel & rows & Hget' & Hjson' & Hfeatures'
          & Hnorm & Hsel & Hrows & _).
    rewrite Hget in Hget'. injection Hget' as <-.
    rewrite Hjson in Hjson'. injection Hjson' as <-.
    rewrite Hfeatures in Hfeatures'. injection Hfeatures' as <-.
    simpl in Hnorm. injection Hnorm as <-.
    apply select_columns_Ok in Hsel as ->.
    assert (selected_of (simple_json_normalize f)
            ∈ selected_of <$> (simple_json_normalize <$> features)) as Hs.
    { apply list_elem_of_fmap. eexists. split; [done|].
      apply list_elem_of_fmap. eauto. }
    destruct (Forall2_elem_of_l _ _ _ _ Hrows Hs) as (r & _ & Hr).
    unfold row_of in Hr. simpl in Hr. rewrite Hcell in Hr.
    apply bind_Ok in Hr as (lo & _ & Hr). apply bind_Ok in Hr as (la & _ & Hr).
    apply bind_Ok in Hr as (de & Ede & _).
    rewrite subscript_short in Ede; done.
  - intros pd requests_get url response data f features Hget Hjson Hfeatures Hf Hmag.
    destruct (load_data_try pd requests_get url) as [df|e] eqn:E;
      [|exists e; unfold load_data; by rewrite E].
    exists TypeError.
    apply load_data_try_Ok in E
      as (response' & data' & features' & records & sel & rows & Hget' & Hjson' & Hfeatures'
          & Hnorm & Hsel & Hrows & _).
    assert (selected_of (simple_json_normalize f) ∈ sel) as Hs.
    { rewrite Hget in Hget'. injection Hget' as <-.
      rewrite Hjson in Hjson'. injection Hjson' as <-.
      rewrite Hfeatures in Hfeatures'. injection Hfeatures' as <-.
      simpl in Hnorm. injection Hnorm as <-.
      apply select_columns_Ok in Hsel as ->.
      apply list_elem_of_fmap. eexists. split; [done|].
      apply list_elem_of_fmap. eauto. }
    destruct (Forall2_elem_of_l _ _ _ _ Hrows Hs) as (r & Hr & Hrow).
    apply row_of_Ok in Hrow as (_ & Hmg & _).
    apply (text_magnitude_raises _ _ _ _ _ _ _ _ _ r Hget' Hjson' Hfeatures' Hnorm Hsel Hrows Hr).
    by rewrite Hmg.
Qed.

Lemma malformed_feature_policy_witness :
  load_data pandas_ns (serving feed_null_neg_pos) "u"
  = (List.filter positive
       (List.filter (fun r => negb (isnull (mag r)))
          [mkRow (JStr "a") JNull (JInt 1700000000000) (JArr [JFloat 1; JFloat 2; JFloat 3])
                 (JFloat 1) (JFloat 2) (JFloat 3) (Timestamp 1700000000000000000);
           mkRow (JStr "b") (JFloat (-1)) (JInt 1700000000001)
                 (JArr [JFloat 4; JFloat 5; JFloat 6])
                 (JFloat 4) (JFloat 5) (JFloat 6) (Timestamp 1700000000001000000);
           mkRow (JStr "c") (JFloat 4.2) (JInt 1700000000002)
                 (JArr [JFloat 139.7; JFloat 35.6; JFloat 10])
                 (JFloat 139.7) (JFloat 35.6) (JFloat 10) (Timestamp 1700000000002000000)]), [])
  /\ (exists e, load_data pandas_ns (serving feed_short_coordinates) "u" = ([], [St_error e]))
  /\ (exists e, load_data pandas_ns (serving feed_text_magnitude) "u" = ([], [St_error e])).
Proof.
  split; [|split].
  - apply (proj1 malformed_feature_policy pandas_ns (serving feed_null_neg_pos) "u"%string
             (mkResponse (Ok feed_null_neg_pos)) feed_null_neg_pos
             (JArr [feature (JStr "a") JNull (JInt 1700000000000) [JFloat 1; JFloat 2; JFloat 3];
                    feature (JStr "b") (JFloat (-1)) (JInt 1700000000001)
                            [JFloat 4; JFloat 5; JFloat 6];
                    feature (JStr "c") (JFloat 4.2) (JInt 1700000000002)
                            [JFloat 139.7; JFloat 35.6; JFloat 10]])
             (simple_json_normalize
                <$> [feature (JStr "a") JNull (JInt 1700000000000) [JFloat 1; JFloat 2; JFloat 3];
                     feature (JStr "b") (JFloat (-1)) (JInt 1700000000001)
                             [JFloat 4; JFloat 5; JFloat 6];
                     feature (JStr "c") (JFloat 4.2) (JInt 1700000000002)
                             [JFloat 139.7; JFloat 35.6; JFloat 10]])
             [mkSelected (JStr "a") JNull (JInt 1700000000000) (JArr [JFloat 1; JFloat 2; JFloat 3]);
              mkSelected (JStr "b") (JFloat (-1)) (JInt 1700000000001)
                         (JArr [JFloat 4; JFloat 5; JFloat 6]);
              mkSelected (JStr "c") (JFloat 4.2) (JInt 1700000000002)
                         (JArr [JFloat 139.7; JFloat 35.6; JFloat 10])]).
    + reflexivity.
    + reflexivity.
    + reflexivity.
    + reflexivity.
    + reflexivity.
    + repeat (apply List.Forall2_cons); try apply Forall2_nil_2; reflexivity.
    + repeat constructor; simpl; eauto.
  - apply (proj1 (proj2 malformed_feature_policy) pandas_ns
             (serving feed_short_coordinates) "u"%string
             (mkResponse (Ok feed_short_coordinates)) feed_short_coordinates
             (feature (JStr "b") (JFloat 5) (JInt 1700000000001) [JFloat 4; JFloat 5])
             [feature (JStr "a") (JFloat 4.2) (JInt 1700000000000)
                      [JFloat 139.7; JFloat 35.6; JFloat 10];
              feature (JStr "b") (JFloat 5) (JInt 1700000000001) [JFloat 4; JFloat 5]]
             [JFloat 4; JFloat 5]).
    + reflexivity.
    + reflexivity.
    + reflexivity.
    + right. left.
    + reflexivity.
    + simpl. lia.
  - apply (proj2 (proj2 malformed_feature_policy) pandas_ns (serving feed_text_magnitude) "u"%string
             (mkResponse (Ok feed_text_magnitude)) feed_text_magnitude
             (feature (JStr "b") (JStr "5.0") (JInt 1700000000001)
                      [JFloat 4; JFloat 5; JFloat 6])
             [feature (JStr "a") (JFloat 4.2) (JInt 1700000000000)
                      [JFloat 139.7; JFloat 35.6; JFloat 10];
              feature (JStr "b") (JStr "5.0") (JInt 1700000000001)
                      [JFloat 4; JFloat 5; JFloat 6]]).
    + reflexivity.
    + reflexivity.
    + reflexivity.
    + right. left.
    + left. by exists "5.0"%string.
Defined.

(** ** The [place] column *)

Lemma dict_get_app (k : string) (l1 l2 : list (string * json)) :
  dict_get k (l1 ++ l2)
  = match dict_get k l2 with
    | Some v => Some v
    | None => dict_get k l1
    end.
Proof.
  induction l1 as [|[k' v] l1 IH]; simpl.
  - by destruct (dict_get k l2).
  - rewrite IH. by destruct (dict_get k l2).
Qed.

Lemma prefix_refl (s : string) : String.prefix s s = true.
Proof. induction s as [|a s IH]; simpl; [done|]. by destruct (ascii_dec a a). Qed.

Lemma prefix_app_l (s t u : string) :
  String.prefix (s +:+ t) u = true -> String.prefix s u = true.
Proof.
  revert u. induction s as [|a s IH]; intros u.
  - intros _. by destruct u.
  - change (String a s +:+ t) with (String a (s +:+ t)).
    destruct u as [|b u]; simpl; [done|].
    destruct (ascii_dec a b); [apply IH | done].
Qed.

Lemma prefix_app_longer (s t : string) (a : ascii) :
  String.prefix (s +:+ String a t) s = false.
Proof.
  induction s as [|b s IH]; [done|].
  change (String b s +:+ String a t) with (String b (s +:+ String a t)).
  simpl. by destruct (ascii_dec b b).
Qed.

Lemma new_key_below (p k : string) : p <> ""%string -> new_key p k = p +:+ "." +:+ k.
Proof. unfold new_key. by destruct p. Qed.

Lemma normalise_json_cons (p k : string) (x : json) (members : list (string * json)) :
  normalise_json p (JObj ((k, x) :: members))
  = normalise_json (new_key p k) x ++ normalise_json p (JObj members).
Proof. reflexivity. Qed.

Lemma json_ind_nested (P : json -> Prop) :
  P JNull -> (forall b, P (JBool b)) -> (forall z, P (JInt z)) -> (forall f, P (JFloat f)) ->
  (forall s, P (JStr s)) -> (forall items, P (JArr items)) ->
  (forall members, Forall (fun kv => P kv.2) members -> P (JObj members)) ->
  forall v, P v.
Proof.
  intros HNull HBool HInt HFloat HStr HArr HObj. fix IH 1.
  intros [ |b|z|f|s|items|members];
    [exact HNull | apply HBool | apply HInt | apply HFloat | apply HStr | apply HArr | ].
  apply HObj. induction members as [|[k x] members IHmembers]; constructor; [apply IH | done].
Qed.

(** Flattening below a prefix gives keys that begin with the prefix. *)
Lemma normalise_json_prefix (key : string) (v : json) :
  forall p : string,
    p <> ""%string -> String.prefix p key = false -> dict_get key (normalise_json p v) = None.
Proof.
  induction v as [ |b|z|f|s|items|members IH] using json_ind_nested; intros p Hp Hpre;
    try (simpl; destruct (String.eqb_spec key p) as [->|_];
         [by rewrite prefix_refl in Hpre | done]).
  induction IH as [|[k x] members Hx _ IHmembers]; [done|].
  rewrite normalise_json_cons, dict_get_app, IHmembers.
  apply Hx.
  - rewrite new_key_below by done. by destruct p.
  - rewrite new_key_below by done.
    destruct (String.prefix (p +:+ "." +:+ k) key) eqn:E; [|done].
    apply prefix_app_l in E. congruence.
Qed.

(** A dict below a key leaves no value under the key itself. *)
Lemma normalise_json_dict (p : string) (members : list (string * json)) :
  p <> ""%string -> dict_get p (normalise_json p (JObj members)) = None.
Proof.
  intros Hp. induction members as [|[k x] members IH]; [done|].
  rewrite normalise_json_cons, dict_get_app, IH.
  apply normalise_json_prefix.
  - rewrite new_key_below by done. by destruct p.
  - rewrite new_key_below by done. apply prefix_app_longer.
Qed.

Lemma feature_normalized (pl mg tm : json) (coords : list json) :
  simple_json_normalize (feature pl mg tm coords)
  = [("type", JStr "Feature")]
    ++ (normalise_json "properties.mag" mg
        ++ normalise_json "properties.place" pl
        ++ normalise_json "properties.time" tm ++ [])
    ++ ([("geometry.type", JStr "Point")] ++ [("geometry.coordinates", JArr coords)] ++ [])
    ++ [].
Proof. reflexivity. Qed.

(** The [properties.place] cell of a feature laid out as the provider's:
    the place itself, unless it is an object, which is flattened away. *)
Lemma place_of_feature (pl mg tm : json) (coords : list json) :
  cell "properties.place" (simple_json_normalize (feature pl mg tm coords))
  = if is_dict pl then JNull else pl.
Proof.
  rewrite feature_normalized. unfold cell. rewrite !dict_get_app. cbn [dict_get String.eqb].
  rewrite (normalise_json_prefix "properties.place" tm "properties.time") by done.
  rewrite (normalise_json_prefix "properties.place" mg "properties.mag") by done.
  destruct pl as [ |b|z|f|s|items|members]; try reflexivity.
  rewrite normalise_json_dict by done. reflexivity.
Qed.

(** Every row [load_data] returns is the row of one feature of the feed;
    a dict under [features] is taken by [json_normalize] as the one
    feature. *)
Lemma load_data_row_feature (pd : Pandas) (requests_get : string -> result Response)
    (url : string) (r : Row) :
  r ∈ (load_data pd requests_get url).1 ->
  exists response data features f,
    requests_get url = Ok response
    /\ response_json response = Ok data
    /\ getitem data "features" = Ok features
    /\ match features with JArr fs => f ∈ fs | _ => f = features end
    /\ row_of pd (selected_of (simple_json_normalize f)) = Ok r.
Proof.
  intros Hr.
  apply load_data_row_source in Hr
    as (response & data & features & records & record & ? & ? & ? & Hnorm & Hrecord & Hrow).
  destruct features as [ |b|z|x|s|fs|members]; try done; simpl in Hnorm;
    injection Hnorm as <-.
  - apply list_elem_of_fmap in Hrecord as (f & -> & Hf).
    by exists response, data, (JArr fs), f.
  - apply list_elem_of_singleton in Hrecord as ->.
    by exists response, data, (JObj members), (JObj members).
Qed.

(** A feature whose [place] is null and whose magnitude is 4.2 is kept, and
    the [place] of its row is null. *)
Lemma null_place_is_kept :
  load_data pandas_ns (serving feed_null_place) "u"
  = ([mkRow JNull (JFloat 4.2) (JInt 1700000000000)
            (JArr [JFloat 139.7; JFloat 35.6; JFloat 10]) (JFloat 139.7) (JFloat 35.6)
            (JFloat 10) (Timestamp 1700000000000000000)], [])
  /\ isnull (place (mkRow JNull (JFloat 4.2) (JInt 1700000000000)
                          (JArr [JFloat 139.7; JFloat 35.6; JFloat 10]) (JFloat 139.7)
                          (JFloat 35.6) (JFloat 10) (Timestamp 1700000000000000000))) = true.
Proof. split; vm_compute; reflexivity. Qed.

(** An object where the place is expected is flattened into columns of its
    own: the row is kept and its [place] is null as well. *)
Example object_place_is_null :
  load_data pandas_ns (serving feed_object_place) "u"
  = ([mkRow JNull (JFloat 4.2) (JInt 1700000000000)
            (JArr [JFloat 139.7; JFloat 35.6; JFloat 10]) (JFloat 139.7) (JFloat 35.6)
            (JFloat 10) (Timestamp 1700000000000000000);
      mkRow (JStr "b") (JFloat 5) (JInt 1700000000001)
            (JArr [JFloat 4; JFloat 5; JFloat 6]) (JFloat 4) (JFloat 5)
            (JFloat 6) (Timestamp 1700000000001000000)], []).
Proof. vm_compute. reflexivity. Qed.

(** C8, as the code has it. The [place] of every row [load_data] returns is
    what [json_normalize] puts in the [properties.place] column for the
    row's feature, taken over unchanged together with that feature's
    magnitude, time and coordinates: nothing filters or fills this column.
    It is null when the feature's record has no such key. For a feature
    laid out as the provider's it is the feature's [properties.place] value
    when that is text (possibly empty), a number, a list or null, and it is
    null when that value is an object, which [json_normalize] flattens into
    columns of its own. *)
Theorem load_data_place_unchanged
    (pd : Pandas) (requests_get : string -> result Response) (url : string) (r : Row) :
  r ∈ (load_data pd requests_get url).1 ->
  exists response data features f,
    requests_get url = Ok response
    /\ response_json response = Ok data
    /\ getitem data "features" = Ok features
    /\ match features with JArr fs => f ∈ fs | _ => f = features end
    /\ place r = cell "properties.place" (simple_json_normalize f)
    /\ mag r = cell "properties.mag" (simple_json_normalize f)
    /\ time r = cell "properties.time" (simple_json_normalize f)
    /\ coordinates r = cell "geometry.coordinates" (simple_json_normalize f)
    /\ (dict_get "properties.place" (simple_json_normalize f) = None -> place r = JNull)
    /\ (forall (pl mg tm : json) (coords : list json),
          f = feature pl mg tm coords ->
          place r = if is_dict pl then JNull else pl).
Proof.
  intros Hr.
  apply load_data_row_feature in Hr as (response & data & features & f & ? & ? & ? & ? & Hrow).
  apply row_of_Ok in Hrow as (Hpl & Hmg & Htm & Hco & _).
  exists response, data, features, f.
  rewrite Hpl, Hmg, Htm, Hco. cbn [selected_of sel_place sel_mag sel_time sel_coordinates].
  do 8 (split; [done|]). split.
  - unfold cell. by intros ->.
  - intros pl mg tm coords ->. apply place_of_feature.
Qed.

Lemma load_data_place_unchanged_witness :
  exists response data features f,
    serving feed_null_place "u" = Ok response
    /\ response_json response = Ok data
    /\ getitem data "features" = Ok features
    /\ match features with JArr fs => f ∈ fs | _ => f = features end
    /\ JNull = cell "properties.place" (simple_json_normalize f)
    /\ JFloat 4.2 = cell "properties.mag" (simple_json_normalize f)
    /\ JInt 1700000000000 = cell "properties.time" (simple_json_normalize f)
    /\ JArr [JFloat 139.7; JFloat 35.6; JFloat 10]
       = cell "geometry.coordinates" (simple_json_normalize f)
    /\ (dict_get "properties.place" (simple_json_normalize f) = None -> JNull = JNull)
    /\ (forall (pl mg tm : json) (coords : list json),
          f = feature pl mg tm coords ->
          JNull = if is_dict pl then JNull else pl).
Proof.
  apply (load_data_place_unchanged pandas_ns (serving feed_null_place) "u"%string
           (mkRow JNull (JFloat 4.2) (JInt 1700000000000)
                  (JArr [JFloat 139.7; JFloat 35.6; JFloat 10]) (JFloat 139.7) (JFloat 35.6)
                  (JFloat 10) (Timestamp 1700000000000000000))).
  vm_compute. left.
Defined.

(** ** The timestamp round trip *)

(** A feature whose epoch value is [-2^63], the integer [int64] keeps for
    [NaT], and whose magnitude is 4.2 is kept, and the [date] of its row is
    [NaT]: there is no timestamp to convert back. *)
Lemma sentinel_time_has_no_timestamp :
  load_data pandas_ns (serving feed_time_sentinel) "u"
  = ([mkRow (JStr "a") (JFloat 4.2) (JInt (- 2 ^ 63))
            (JArr [JFloat 139.7; JFloat 35.6; JFloat 10]) (JFloat 139.7) (JFloat 35.6)
            (JFloat 10) NaT], [])
  /\ date (mkRow (JStr "a") (JFloat 4.2) (JInt (- 2 ^ 63))
                 (JArr [JFloat 139.7; JFloat 35.6; JFloat 10]) (JFloat 139.7) (JFloat 35.6)
                 (JFloat 10) NaT) = NaT.
Proof. split; vm_compute; reflexivity. Qed.

(** C9, as the code has it. For every row [load_data] returns whose [time]
    is an integer count of milliseconds [ms] other than [-2^63], the [date]
    of the row is the instant [ms * 10^6] nanoseconds after the epoch, and
    the whole milliseconds in that count are [ms] again. For [ms = -2^63]
    the [date] is [NaT], which stands for no instant. *)
Theorem timestamp_round_trip
    (pd : Pandas) (requests_get : string -> result Response) (url : string) (r : Row) (ms : Z) :
  r ∈ (load_data pd requests_get url).1 ->
  time r = JInt ms ->
  (ms <> - 2 ^ 63 ->
   date r = Timestamp (ms * 1000000)
   /\ epoch_ms_of_timestamp (ms * 1000000) = ms)
  /\ (ms = - 2 ^ 63 -> date r = NaT).
Proof.
  intros Hr Htime.
  apply load_data_row_source in Hr as (_ & _ & _ & _ & record & _ & _ & _ & _ & _ & Hrow).
  apply row_of_Ok in Hrow as (_ & _ & _ & _ & _ & _ & _ & Hdate).
  rewrite Htime in Hdate.
  unfold to_datetime_ms, iNaT in Hdate.
  destruct (Z.eqb_spec ms (- 2 ^ 63)) as [->|Hne].
  - injection Hdate as <-. split; [done|]. done.
  - destruct (_ || _); [|done]. injection Hdate as <-.
    split; [|done]. intros _. split; [done|].
    unfold epoch_ms_of_timestamp. by apply Z.div_mul.
Qed.

Lemma timestamp_round_trip_witness :
  (1700000000002 <> - 2 ^ 63 ->
   Timestamp 1700000000002000000 = Timestamp (1700000000002 * 1000000)
   /\ epoch_ms_of_timestamp (1700000000002 * 1000000) = 1700000000002)
  /\ (1700000000002 = - 2 ^ 63 -> Timestamp 1700000000002000000 = NaT).
Proof.
  apply (timestamp_round_trip pandas_ns (serving feed_null_neg_pos) "u"%string
           (mkRow (JStr "c") (JFloat 4.2) (JInt 1700000000002)
                  (JArr [JFloat 139.7; JFloat 35.6; JFloat 10]) (JFloat 139.7) (JFloat 35.6)
                  (JFloat 10) (Timestamp 1700000000002000000)) 1700000000002).
  - vm_compute. left.
  - reflexivity.
Defined.

(** ** Failed fetches and empty frames *)

Lemma FetchError_Raise (pd : Pandas) (requests_get : string -> result Response)
    (url : string) (e : exn) :
  FetchError requests_get url e -> load_data_try pd requests_get url = Raise e.
Proof.
  unfold load_data_try.
  intros [e' H1|response e' H1 H2|response data e' H1 H2 H3
          |response data features e' H1 H2 H3 H4
          |response data features records e' H1 H2 H3 H4 H5].
  - by rewrite H1.
  - rewrite H1. simpl. by rewrite H2.
  - rewrite H1. simpl. rewrite H2. simpl. by rewrite H3.
  - rewrite H1. simpl. rewrite H2. simpl. rewrite H3. simpl. by rewrite H4.
  - rewrite H1. simpl. rewrite H2. simpl. rewrite H3. simpl. rewrite H4. simpl. by rewrite H5.
Qed.

Lemma render_empty (pd : Pandas) (slider : SliderArgs -> result float) :
  render pd slider [] = mkPage [St_warning] (Ok tt).
Proof. reflexivity. Qed.

(** The slider section shows at most its three sidebar elements, and them
    only once the slider has returned. *)
Lemma magnitude_filter_shown (slider : SliderArgs -> result float) (df : DataFrame) :
  shown (magnitude_filter slider df) = []
  \/ exists args t n,
       slider args = Ok t
       /\ (shown (magnitude_filter slider df) = [Sidebar_slider args]
           \/ shown (magnitude_filter slider df)
              = [Sidebar_slider args; Sidebar_write_showing t; Sidebar_write_total n]).
Proof.
  unfold magnitude_filter. destruct (empty df); simpl; [by left|].
  destruct (series_min (mag <$> df) ≫= py_float) as [min_mag|]; simpl; [|by left].
  destruct (series_max (mag <$> df) ≫= py_float) as [max_mag|]; simpl; [|by left].
  destruct (slider _) as [t|] eqn:Hslider; simpl; [|by left].
  destruct (filter_stage df t) as [df'|]; simpl; right.
  - eexists _, t, (length df'). split; [exact Hslider|]. by right.
  - eexists _, t, 0%nat. split; [exact Hslider|]. by left.
Qed.

Lemma magnitude_filter_sidebar (slider : SliderArgs -> result float) (df : DataFrame) :
  Forall (fun e => is_chart e = false /\ is_dataframe e = false)
         (shown (magnitude_filter slider df)).
Proof.
  destruct (magnitude_filter_shown slider df) as [->|(args & t & n & _ & [-> | ->])];
    repeat constructor.
Qed.

(** C5. When the fetch fails (the request raises, the body is not JSON, the
    decoded body has no [features], or the expected columns are missing),
    [load_data] returns the empty frame and shows the error message. The
    script then runs to its end without an exception: on a run that has to
    fetch, the page is the error message followed by the "no data" warning,
    and the empty frame is what the cache keeps. *)
Theorem fetch_error_degrades
    (pd : Pandas) (requests_get : string -> result Response) (url : string) (e : exn) :
  FetchError requests_get url e ->
  load_data pd requests_get url = ([], [St_error e])
  /\ forall (timeframe : Timeframe) (slider : SliderArgs -> result float)
            (now : Z) (cache : gmap string Entry),
      timeframe_urls timeframe = url ->
      fresh_entry 600 now cache url = None ->
      dashboard timeframe requests_get pd slider now cache
      = (mkPage [St_error e; St_warning] (Ok tt),
         <[url := mkEntry [] [St_error e] now]> cache).
Proof.
  intros H. apply (FetchError_Raise pd) in H.
  assert (load_data pd requests_get url = ([], [St_error e])) as Hload.
  { unfold load_data. by rewrite H. }
  split; [done|].
  intros timeframe slider now cache Hurl Hfresh.
  unfold dashboard, load_data_cached, cache_data. rewrite Hurl, Hfresh, Hload. reflexivity.
Qed.

Lemma fetch_error_degrades_witness :
  load_data pandas_ns (fun _ => Raise RequestException) (timeframe_urls PastDay)
  = ([], [St_error RequestException]).
Proof.
  apply (fetch_error_degrades pandas_ns (fun _ => Raise RequestException) (timeframe_urls PastDay)
           RequestException).
  apply network_failure. reflexivity.
Defined.

(** C6. Whenever the frame left by the magnitude filter is empty, the script
    ends without an exception, the warning is shown last, and neither the
    map nor the table is among the elements shown. An empty [features] list
    is such a case: on a run that has to fetch, the page is the error
    message of the failed column selection followed by the warning. *)
Theorem empty_table_suppresses_map :
  (forall (pd : Pandas) (slider : SliderArgs -> result float) (df : DataFrame),
      outcome (magnitude_filter slider df) = Ok [] ->
      outcome (render pd slider df) = Ok tt
      /\ shown (render pd slider df) = shown (magnitude_filter slider df) ++ [St_warning]
      /\ Forall (fun e => is_chart e = false /\ is_dataframe e = false)
                (shown (render pd slider df)))
  /\ (forall (timeframe : Timeframe) (pd : Pandas) (slider : SliderArgs -> result float)
             (now : Z) (cache : gmap string Entry),
      fresh_entry 600 now cache (timeframe_urls timeframe) = None ->
      (dashboard timeframe (serving (feed [])) pd slider now cache).1
      = mkPage [St_error KeyError; St_warning] (Ok tt)).
Proof.
  split.
  - intros pd slider df H.
    assert (render pd slider df
            = mkPage (shown (magnitude_filter slider df) ++ [St_warning]) (Ok tt)) as ->.
    { unfold render. unfold mbind at 1. unfold page_bind. rewrite H. reflexivity. }
    simpl. repeat split.
    apply Forall_app. split; [apply magnitude_filter_sidebar | by repeat constructor].
  - intros timeframe pd slider now cache Hfresh.
    unfold dashboard, load_data_cached, cache_data. rewrite Hfresh. reflexivity.
Qed.

Lemma empty_table_suppresses_map_witness :
  outcome (render pandas_ns first_run []) = Ok tt
  /\ shown (render pandas_ns first_run [])
     = shown (magnitude_filter first_run []) ++ [St_warning]
  /\ Forall (fun e => is_chart e = false /\ is_dataframe e = false)
            (shown (render pandas_ns first_run [])).
Proof.
  apply (proj1 empty_table_suppresses_map pandas_ns first_run []). reflexivity.
Defined.

(** ** The slider *)





Lemma apply_number_Ok (col : list json) :
  Forall (fun c => exists v, number c = Ok v) col -> exists vs, apply number col = Ok vs.
Proof.
  induction 1 as [|c col [v Hv] _ [vs Hvs]]; simpl; [by eexists|].
  rewrite Hv. simpl. rewrite Hvs. by eexists.
Qed.



(** [round1] on some doubles: the decimal literal is the double nearest to
    it, so 4.35 lies below the tie and 0.05 above it; 0.25 and 0.75 are exact
    ties and go to the even digit. *)
Example round1_examples :
  (round1 <$> [4.2; 4.35; 0.05; 0.25; 0.75; 2.5; 6.5; 4; -0.04; 1e22])%float
  = [4.2; 4.3; 0.1; 0.2; 0.8; 2.5; 6.5; 4; -0; 1e22]%float.
Proof. vm_compute. reflexivity. Qed.

(** An integer magnitude beyond binary64 passes the comparisons of
    [load_data] and of the filter as an infinity, but [float()] of it
    raises: no slider is created. *)
Example too_large_magnitude_stops_the_script :
  forall r1 r2 : Row,
    mag r1 = JFloat 4.2 -> mag r2 = JInt (10 ^ 400) ->
    Normalized [r1; r2]
    /\ forall slider, magnitude_filter slider [r1; r2] = mkPage [] (Raise OverflowError).
Proof.
  intros r1 r2 H1 H2. split.
  - repeat constructor; rewrite ?H1, ?H2; try done; eexists; (split; [reflexivity|]);
      vm_compute; reflexivity.
  - intros slider. unfold magnitude_filter, series_min, series_max. cbn [empty fmap list_fmap].
    rewrite H1, H2. vm_compute. reflexivity.
Qed.




(** ** The cache *)

Lemma fresh_entry_insert (ttl now now' : Z) (cache : gmap string Entry) (url : string)
    (df : DataFrame) (elements : list element) :
  now' < now + ttl ->
  fresh_entry ttl now' (<[url := mkEntry df elements now]> cache) url
  = Some (mkEntry df elements now).
Proof.
  intros H. unfold fresh_entry. rewrite lookup_insert_eq. simpl.
  destruct (Z.ltb_spec now' (now + ttl)); [done | lia].
Qed.

(** A lookup that finds a fresh entry returns the stored frame, replays the
    stored elements, and neither calls the function nor changes the cache. *)
Lemma cache_data_hit (ttl : Z) (func : string -> DataFrame * list element) (now : Z)
    (cache : gmap string Entry) (url : string) (entry : Entry) :
  cache !! url = Some entry ->
  now < stored_at entry + ttl ->
  cache_data ttl func now cache url
  = mkLookup (cached_value entry) (cached_elements entry) 0 cache.
Proof.
  intros Hentry Hage. unfold cache_data, fresh_entry. rewrite Hentry. simpl.
  destruct (Z.ltb_spec now (stored_at entry + ttl)); [done | lia].
Qed.

Lemma cache_data_miss (ttl : Z) (func : string -> DataFrame * list element) (now : Z)
    (cache : gmap string Entry) (url : string) :
  fresh_entry ttl now cache url = None ->
  cache_data ttl func now cache url
  = mkLookup (func url).1 (func url).2 1
             (<[url := mkEntry (func url).1 (func url).2 now]> cache).
Proof.
  intros Hfresh. unfold cache_data. rewrite Hfresh. by destruct (func url).
Qed.

(** An entry stored at 0 is served at 500 and fetched anew at 700, although
    these two lookups are 200 seconds apart; served at 100 and at 200, it is
    fetched by neither of the two. *)
Lemma lookups_within_ttl_of_each_other :
  let cache := cache_after (load_data_cached pandas_ns (serving feed_4_5_6) 0 ∅ "u") in
  let l1 := load_data_cached pandas_ns (serving feed_null_neg_pos) 500 cache "u" in
  let l2 := load_data_cached pandas_ns (serving feed_null_neg_pos) 700 (cache_after l1) "u" in
  let l1' := load_data_cached pandas_ns (serving feed_null_neg_pos) 100 cache "u" in
  let l2' := load_data_cached pandas_ns (serving feed_null_neg_pos) 200 (cache_after l1') "u" in
  (calls l1 = 0 /\ calls l2 = 1)%nat
  /\ returned l1 = (load_data pandas_ns (serving feed_4_5_6) "u").1
  /\ returned l2 = (load_data pandas_ns (serving feed_null_neg_pos) "u").1
  /\ returned l2 <> returned l1
  /\ (calls l1' + calls l2' = 0)%nat.
Proof.
  cbv zeta. repeat split; vm_compute; (reflexivity || discriminate).
Qed.

Lemma fresh_entry_absent (ttl now : Z) (cache : gmap string Entry) (url : string) :
  cache !! url = None -> fresh_entry ttl now cache url = None.
Proof. intros H. unfold fresh_entry. by rewrite H. Qed.

Lemma fresh_entry_expired (ttl now : Z) (cache : gmap string Entry) (url : string)
    (entry : Entry) :
  cache !! url = Some entry -> stored_at entry + ttl <= now ->
  fresh_entry ttl now cache url = None.
Proof.
  intros H Hage. unfold fresh_entry. rewrite H. simpl.
  destruct (Z.ltb_spec now (stored_at entry + ttl)); [lia | done].
Qed.

(** C4, as the code has it. A lookup is served from the cache exactly while
    the entry's age, counted from the fetch that stored it, is below 600
    seconds: it then returns the stored frame whatever the provider would
    answer now, without calling [load_data]; once the age has reached 600
    seconds, and when the URL has no entry at all, the lookup calls
    [load_data] once and stores what it returned under the current clock
    reading. Hence two lookups of one URL less than 600 seconds apart, the
    first of which finds no entry younger than 600 seconds, call [load_data]
    exactly once: the first fetches and stores, the second returns that
    stored frame, replays what was shown, and leaves the cache as it is. *)
Theorem two_lookups_one_fetch :
  (forall (pd : Pandas) (requests_get : string -> result Response)
          (now : Z) (cache : gmap string Entry)
          (url : string) (entry : Entry),
      cache !! url = Some entry ->
      now < stored_at entry + 600 ->
      load_data_cached pd requests_get now cache url
      = mkLookup (cached_value entry) (cached_elements entry) 0 cache)
  /\ (forall (pd : Pandas) (requests_get : string -> result Response)
             (now : Z) (cache : gmap string Entry)
             (url : string) (entry : Entry),
      cache !! url = Some entry ->
      stored_at entry + 600 <= now ->
      load_data_cached pd requests_get now cache url
      = mkLookup (load_data pd requests_get url).1 (load_data pd requests_get url).2 1
                 (<[url := mkEntry (load_data pd requests_get url).1
                                   (load_data pd requests_get url).2 now]> cache))
  /\ (forall (pd : Pandas) (requests_get : string -> result Response)
             (now : Z) (cache : gmap string Entry)
             (url : string),
      cache !! url = None ->
      load_data_cached pd requests_get now cache url
      = mkLookup (load_data pd requests_get url).1 (load_data pd requests_get url).2 1
                 (<[url := mkEntry (load_data pd requests_get url).1
                                   (load_data pd requests_get url).2 now]> cache))
  /\ (forall (pd : Pandas) (requests_get1 requests_get2 : string -> result Response) (t1 t2 : Z)
             (cache : gmap string Entry) (url : string),
      cache !! url = None
      \/ (exists entry : Entry, cache !! url = Some entry /\ stored_at entry + 600 <= t1) ->
      t2 < t1 + 600 ->
      let l1 := load_data_cached pd requests_get1 t1 cache url in
      let l2 := load_data_cached pd requests_get2 t2 (cache_after l1) url in
      (calls l1 = 1 /\ calls l2 = 0)%nat
      /\ returned l1 = (load_data pd requests_get1 url).1
      /\ returned l2 = returned l1
      /\ replayed l2 = replayed l1
      /\ cache_after l2 = cache_after l1).
Proof.
  split; [|split; [|split]].
  - intros pd requests_get now cache url entry Hentry Hage. by apply cache_data_hit.
  - intros pd requests_get now cache url entry Hentry Hage.
    apply cache_data_miss. by eapply fresh_entry_expired.
  - intros pd requests_get now cache url Hentry.
    apply cache_data_miss. by apply fresh_entry_absent.
  - intros pd requests_get1 requests_get2 t1 t2 cache url Hmiss Hlt. cbv zeta.
    assert (fresh_entry 600 t1 cache url = None) as Hfresh.
    { destruct Hmiss as [Hnone|(entry & Hentry & Hage)];
        [by apply fresh_entry_absent | by eapply fresh_entry_expired]. }
    unfold load_data_cached. rewrite (cache_data_miss _ _ _ _ _ Hfresh).
    cbn [cache_after calls returned replayed].
    unfold cache_data. rewrite fresh_entry_insert by done. simpl. done.
Qed.

Lemma two_lookups_one_fetch_witness :
  (let l1 := load_data_cached pandas_ns (serving feed_4_5_6) 0 ∅ "u" in
   let l2 := load_data_cached pandas_ns (serving feed_null_neg_pos) 599 (cache_after l1) "u" in
   (calls l1 = 1 /\ calls l2 = 0)%nat
   /\ returned l1 = (load_data pandas_ns (serving feed_4_5_6) "u").1
   /\ returned l2 = returned l1
   /\ replayed l2 = replayed l1
   /\ cache_after l2 = cache_after l1)
  /\ (let l1 := load_data_cached pandas_ns (serving feed_4_5_6) 600
                  (<["u"%string := mkEntry [] [] 0]> ∅) "u" in
      let l2 := load_data_cached pandas_ns (serving feed_null_neg_pos) 1199 (cache_after l1) "u" in
      (calls l1 = 1 /\ calls l2 = 0)%nat
      /\ returned l1 = (load_data pandas_ns (serving feed_4_5_6) "u").1
      /\ returned l2 = returned l1
      /\ replayed l2 = replayed l1
      /\ cache_after l2 = cache_after l1).
Proof.
  split.
  - apply (proj2 (proj2 (proj2 two_lookups_one_fetch))
             pandas_ns (serving feed_4_5_6) (serving feed_null_neg_pos) 0 599 ∅ "u"%string).
    + left. reflexivity.
    + lia.
  - apply (proj2 (proj2 (proj2 two_lookups_one_fetch))
             pandas_ns (serving feed_4_5_6) (serving feed_null_neg_pos) 600 1199
             (<["u"%string := mkEntry [] [] 0]> ∅) "u"%string).
    + right. exists (mkEntry [] [] 0). split; [reflexivity | simpl; lia].
    + lia.
Defined.

(** * Further properties of the script *)

(** ** [load_data] on well-formed feeds *)

Lemma filter_fmap {A B : Type} (f : A -> B) (p : B -> bool) (l : list A) :
  List.filter p (f <$> l) = f <$> List.filter (fun x => p (f x)) l.
Proof.
  induction l as [|x l IH]; csimpl; [done|].
  destruct (p (f x)); csimpl; by rewrite IH.
Qed.

Lemma isnull_not_positive (c : json) :
  isnull c = true -> match number c with Ok v => (0 <? v)%float | Raise _ => false end = false.
Proof.
  destruct c as [| | |f| | |]; try done; simpl.
  intros Hnan. destruct (0 <? f)%float eqn:Hlt; [|done].
  apply ltb_not_nan_r in Hlt. congruence.
Qed.

Lemma filter_positive_notnull (rows : list Row) :
  List.filter positive (List.filter (fun r => negb (isnull (mag r))) rows)
  = List.filter positive rows.
Proof.
  induction rows as [|r rows IH]; simpl; [done|].
  destruct (isnull (mag r)) eqn:Hnull; simpl.
  - unfold positive at 2. rewrite (isnull_not_positive _ Hnull). done.
  - destruct (positive r); by rewrite IH.
Qed.

Lemma nth_error_nth (l : list json) (i : nat) :
  (i < length l)%nat -> nth_error l i = Some (List.nth i l JNull).
Proof. intros H. by apply nth_error_nth'. Qed.

Lemma row_of_feature_of (pd : Pandas) (q : Quake) :
  well_formed q ->
  row_of pd (selected_of (simple_json_normalize (feature_of q))) = Ok (row_of_quake q).
Proof.
  intros (Hpl & (v & Hv) & Ht & Hlen). unfold feature_of.
  rewrite selected_of_feature; try done.
  - unfold row_of, row_of_quake. cbn [sel_place sel_mag sel_time sel_coordinates subscript].
    rewrite !nth_error_nth by lia. cbn [mbind result_bind].
    unfold q_time_json. destruct (q_time q) as [t|].
    + by rewrite to_datetime_ms_int.
    + done.
  - by destruct (q_mag q).
  - unfold q_time_json. by destruct (q_time q).
Qed.

Lemma has_column_feature_of (q : Quake) (c : string) (records : list (list (string * json))) :
  well_formed q ->
  c = "properties.place" \/ c = "properties.mag" \/ c = "properties.time"
    \/ c = "geometry.coordinates" ->
  has_column c (simple_json_normalize (feature_of q) :: records) = true.
Proof.
  intros (Hpl & (v & Hv) & Ht & _) Hc. unfold feature_of.
  apply has_column_feature; try done.
  - by destruct (q_mag q).
  - unfold q_time_json. by destruct (q_time q).
Qed.

(** X1. On a feed of well-formed features (at least one), [load_data] returns
    one row for each feature whose magnitude is above zero and none for the
    others, in the order of the feed, with longitude, latitude and depth
    taken from positions 0, 1 and 2 of the coordinates and the date at
    [time * 10^6] nanoseconds ([NaT] for a null time), and shows nothing. *)
Theorem load_data_well_formed
    (pd : Pandas) (requests_get : string -> result Response) (url : string) (response : Response)
    (quakes : list Quake) :
  requests_get url = Ok response ->
  response_json response = Ok (feed (feature_of <$> quakes)) ->
  quakes <> [] ->
  Forall well_formed quakes ->
  load_data pd requests_get url = (row_of_quake <$> List.filter q_positive quakes, []).
Proof.
  intros Hget Hjson Hne Hwf. unfold load_data.
  rewrite (load_data_try_complete pd requests_get url response _ _
             (simple_json_normalize <$> (feature_of <$> quakes))
             (selected_of <$> (simple_json_normalize <$> (feature_of <$> quakes)))
             (row_of_quake <$> quakes) Hget Hjson eq_refl eq_refl).
  - rewrite filter_positive_notnull, filter_fmap. done.
  - unfold select_columns. destruct quakes as [|q quakes]; [done|].
    apply Forall_cons in Hwf as [Hq _].
    rewrite !fmap_cons, !(has_column_feature_of _ _ _ Hq) by tauto. reflexivity.
  - clear Hne Hjson. induction Hwf as [|q quakes Hq _ IH]; csimpl.
    + apply Forall2_nil_2.
    + apply List.Forall2_cons; [by apply row_of_feature_of | exact IH].
  - apply Forall_fmap. eapply Forall_impl; [exact Hwf|].
    intros q (_ & Hv & _) _. exact Hv.
Qed.

Lemma load_data_well_formed_witness :
  load_data pandas_ns (serving feed_null_neg_pos) "u"
  = (row_of_quake
       <$> List.filter q_positive
             [mkQuake (JStr "a") JNull (Some 1700000000000) [JFloat 1; JFloat 2; JFloat 3];
              mkQuake (JStr "b") (JFloat (-1)) (Some 1700000000001)
                      [JFloat 4; JFloat 5; JFloat 6];
              mkQuake (JStr "c") (JFloat 4.2) (Some 1700000000002)
                      [JFloat 139.7; JFloat 35.6; JFloat 10]], []).
Proof.
  apply (load_data_well_formed pandas_ns (serving feed_null_neg_pos) "u"%string
           (mkResponse (Ok feed_null_neg_pos))).
  - reflexivity.
  - reflexivity.
  - discriminate.
  - repeat constructor; simpl; eauto; unfold valid_epoch_ms; lia.
Defined.

(** ** Coordinates, order and all-or-nothing *)

(** X2. Every row [load_data] returns has coordinates that are not null, and
    when they are a list it has at least three elements, of which the
    first three are the row's longitude, latitude and depth. *)
Theorem load_data_coordinates_positional
    (pd : Pandas) (requests_get : string -> result Response) (url : string) (r : Row) :
  r ∈ (load_data pd requests_get url).1 ->
  isnull (coordinates r) = false
  /\ forall items : list json,
       coordinates r = JArr items ->
       (3 <= length items)%nat
       /\ nth_error items 0 = Some (lon r)
       /\ nth_error items 1 = Some (lat r)
       /\ nth_error items 2 = Some (depth r).
Proof.
  intros Hr.
  apply load_data_row_source in Hr as (_ & _ & _ & _ & record & _ & _ & _ & _ & _ & Hrow).
  apply row_of_Ok in Hrow as (_ & _ & _ & _ & H0 & H1 & H2 & _).
  split.
  - destruct (coordinates r); done.
  - intros items Hitems. rewrite Hitems in H0, H1, H2. unfold subscript in H0, H1, H2.
    destruct (nth_error items 0) as [x|] eqn:E0; [|done].
    destruct (nth_error items 1) as [y|] eqn:E1; [|done].
    destruct (nth_error items 2) as [z|] eqn:E2; [|done].
    injection H0 as <-. injection H1 as <-. injection H2 as <-.
    split; [|done].
    assert (2 < length items)%nat; [|lia]. apply nth_error_Some. congruence.
Qed.

Lemma load_data_coordinates_positional_witness :
  isnull (JArr [JFloat 139.7; JFloat 35.6; JFloat 10]) = false
  /\ forall items : list json,
       JArr [JFloat 139.7; JFloat 35.6; JFloat 10] = JArr items ->
       (3 <= length items)%nat
       /\ nth_error items 0 = Some (JFloat 139.7)
       /\ nth_error items 1 = Some (JFloat 35.6)
       /\ nth_error items 2 = Some (JFloat 10).
Proof.
  apply (load_data_coordinates_positional pandas_ns (serving feed_null_neg_pos) "u"%string
           (mkRow (JStr "c") (JFloat 4.2) (JInt 1700000000002)
                  (JArr [JFloat 139.7; JFloat 35.6; JFloat 10]) (JFloat 139.7) (JFloat 35.6)
                  (JFloat 10) (Timestamp 1700000000002000000))).
  vm_compute. left.
Defined.

Lemma features_records (pd : Pandas) (requests_get : string -> result Response) (url : string)
    (response : Response) (data : json) (fs : list json) (df : DataFrame) :
  requests_get url = Ok response ->
  response_json response = Ok data ->
  getitem data "features" = Ok (JArr fs) ->
  load_data_try pd requests_get url = Ok df ->
  exists rows,
    Forall2 (fun f r => row_of pd (selected_of (simple_json_normalize f)) = Ok r) fs rows
    /\ df = List.filter positive (List.filter (fun r => negb (isnull (mag r))) rows).
Proof.
  intros Hget Hjson Hfeatures E.
  apply load_data_try_Ok in E
    as (response' & data' & features' & records & sel & rows & Hget' & Hjson' & Hfeatures'
        & Hnorm & Hsel & Hrows & ->).
  rewrite Hget in Hget'. injection Hget' as <-.
  rewrite Hjson in Hjson'. injection Hjson' as <-.
  rewrite Hfeatures in Hfeatures'. injection Hfeatures' as <-.
  simpl in Hnorm. injection Hnorm as <-.
  apply select_columns_Ok in Hsel as ->.
  exists rows. split; [|done].
  rewrite <- list_fmap_compose in Hrows. by apply Forall2_fmap_l in Hrows.
Qed.

(** X3. [load_data] returns at most one row per feature of the feed, in the
    order of the feed; and it is all or nothing: if it returns any row at
    all, then the row of every feature of the feed could be built. *)
Theorem load_data_feed_order
    (pd : Pandas) (requests_get : string -> result Response) (url : string) (response : Response)
    (data : json) (fs : list json) :
  requests_get url = Ok response ->
  response_json response = Ok data ->
  getitem data "features" = Ok (JArr fs) ->
  (length (load_data pd requests_get url).1 <= length fs)%nat
  /\ ((load_data pd requests_get url).1 <> [] ->
      exists rows,
        Forall2 (fun f r => row_of pd (selected_of (simple_json_normalize f)) = Ok r) fs rows
        /\ (load_data pd requests_get url).1 `sublist_of` rows).
Proof.
  intros Hget Hjson Hfeatures. unfold load_data.
  destruct (load_data_try pd requests_get url) as [df|e] eqn:E; simpl.
  - destruct (features_records _ _ _ _ _ _ _ Hget Hjson Hfeatures E) as (rows & Hrows & ->).
    assert (List.filter positive (List.filter (fun r => negb (isnull (mag r))) rows)
            `sublist_of` rows) as Hsub.
    { etrans; apply filter_sublist. }
    split.
    + apply sublist_length in Hsub. apply Forall2_length in Hrows. lia.
    + intros _. by exists rows.
  - split; [lia|done].
Qed.

Lemma load_data_feed_order_witness :
  (length (load_data pandas_ns (serving feed_null_neg_pos) "u").1 <= 3)%nat
  /\ ((load_data pandas_ns (serving feed_null_neg_pos) "u").1 <> [] ->
      exists rows,
        Forall2 (fun f r => row_of pandas_ns (selected_of (simple_json_normalize f)) = Ok r)
          [feature (JStr "a") JNull (JInt 1700000000000) [JFloat 1; JFloat 2; JFloat 3];
           feature (JStr "b") (JFloat (-1)) (JInt 1700000000001)
                   [JFloat 4; JFloat 5; JFloat 6];
           feature (JStr "c") (JFloat 4.2) (JInt 1700000000002)
                   [JFloat 139.7; JFloat 35.6; JFloat 10]] rows
        /\ (load_data pandas_ns (serving feed_null_neg_pos) "u").1 `sublist_of` rows).
Proof.
  apply (load_data_feed_order pandas_ns (serving feed_null_neg_pos) "u"%string
           (mkResponse (Ok feed_null_neg_pos)) feed_null_neg_pos
           [feature (JStr "a") JNull (JInt 1700000000000) [JFloat 1; JFloat 2; JFloat 3];
            feature (JStr "b") (JFloat (-1)) (JInt 1700000000001)
                    [JFloat 4; JFloat 5; JFloat 6];
            feature (JStr "c") (JFloat 4.2) (JInt 1700000000002)
                    [JFloat 139.7; JFloat 35.6; JFloat 10]]); reflexivity.
Defined.

(** ** Records that end the whole pass *)

Lemma row_of_Raise_aborts (pd : Pandas) (requests_get : string -> result Response) (url : string)
    (response : Response) (data f : json) (fs : list json) (e' : exn) :
  requests_get url = Ok response ->
  response_json response = Ok data ->
  getitem data "features" = Ok (JArr fs) ->
  f ∈ fs ->
  row_of pd (selected_of (simple_json_normalize f)) = Raise e' ->
  exists e, load_data pd requests_get url = ([], [St_error e]).
Proof.
  intros Hget Hjson Hfeatures Hf Hrow. unfold load_data.
  destruct (load_data_try pd requests_get url) as [df|e] eqn:E; [|by exists e].
  exfalso.
  destruct (features_records _ _ _ _ _ _ _ Hget Hjson Hfeatures E) as (rows & Hrows & _).
  destruct (Forall2_elem_of_l _ _ _ _ Hrows Hf) as (r & _ & Hr). congruence.
Qed.

(** X4. A feature whose coordinates are null or missing is not skipped
    either: the subscript of line 63 raises, the error is shown and the
    frame returned is empty, whatever the other features are. *)
Theorem load_data_aborts_on_unbuildable_row
    (pd : Pandas) (requests_get : string -> result Response) (url : string) (response : Response)
    (data f : json) (fs : list json) :
  requests_get url = Ok response ->
  response_json response = Ok data ->
  getitem data "features" = Ok (JArr fs) ->
  f ∈ fs ->
  isnull (cell "geometry.coordinates" (simple_json_normalize f)) = true ->
  exists e, load_data pd requests_get url = ([], [St_error e]).
Proof.
  intros Hget Hjson Hfeatures Hf Hnull.
  assert (exists e', row_of pd (selected_of (simple_json_normalize f)) = Raise e') as [e' He'].
  { unfold row_of, selected_of. cbn [sel_place sel_mag sel_time sel_coordinates].
    destruct (cell "geometry.coordinates" (simple_json_normalize f)); try done;
      simpl; eauto. }
  by eapply row_of_Raise_aborts.
Qed.

Lemma load_data_aborts_on_unbuildable_row_witness :
  exists e, load_data pandas_ns (serving feed_null_coordinates) "u" = ([], [St_error e]).
Proof.
  apply (load_data_aborts_on_unbuildable_row pandas_ns (serving feed_null_coordinates) "u"%string
           (mkResponse (Ok feed_null_coordinates)) feed_null_coordinates
           (JObj [("type", JStr "Feature");
                  ("properties", JObj [("mag", JFloat 5); ("place", JStr "b");
                                       ("time", JInt 1700000000001)]);
                  ("geometry", JObj [("type", JStr "Point"); ("coordinates", JNull)])]%string)
           [feature (JStr "a") (JFloat 4.2) (JInt 1700000000000)
                    [JFloat 139.7; JFloat 35.6; JFloat 10];
            JObj [("type", JStr "Feature");
                  ("properties", JObj [("mag", JFloat 5); ("place", JStr "b");
                                       ("time", JInt 1700000000001)]);
                  ("geometry", JObj [("type", JStr "Point"); ("coordinates", JNull)])]%string]).
  - reflexivity.
  - reflexivity.
  - reflexivity.
  - right. left.
  - reflexivity.
Defined.

(** X5. A magnitude that is text or a list is not skipped like a null one: when
    the row of every feature can be built and one of them has such a
    magnitude, the comparison of line 72 raises a [TypeError], which is
    shown, and the frame returned is empty. *)
Theorem load_data_aborts_on_text_magnitude
    (pd : Pandas) (requests_get : string -> result Response) (url : string) (response : Response)
    (data features : json) (records : list (list (string * json)))
    (sel : list Selected) (rows : list Row) (r : Row) :
  requests_get url = Ok response ->
  response_json response = Ok data ->
  getitem data "features" = Ok features ->
  json_normalize features = Ok records ->
  select_columns records = Ok sel ->
  Forall2 (fun s r => row_of pd s = Ok r) sel rows ->
  r ∈ rows ->
  (exists s, mag r = JStr s) \/ (exists items, mag r = JArr items) ->
  load_data pd requests_get url = ([], [St_error TypeError]).
Proof. apply text_magnitude_raises. Qed.

Lemma load_data_aborts_on_text_magnitude_witness :
  load_data pandas_ns (serving feed_text_magnitude) "u" = ([], [St_error TypeError]).
Proof.
  apply (load_data_aborts_on_text_magnitude pandas_ns (serving feed_text_magnitude) "u"%string
           (mkResponse (Ok feed_text_magnitude)) feed_text_magnitude
           (JArr [feature (JStr "a") (JFloat 4.2) (JInt 1700000000000)
                          [JFloat 139.7; JFloat 35.6; JFloat 10];
                  feature (JStr "b") (JStr "5.0") (JInt 1700000000001)
                          [JFloat 4; JFloat 5; JFloat 6]])
           (simple_json_normalize
              <$> [feature (JStr "a") (JFloat 4.2) (JInt 1700000000000)
                           [JFloat 139.7; JFloat 35.6; JFloat 10];
                   feature (JStr "b") (JStr "5.0") (JInt 1700000000001)
                           [JFloat 4; JFloat 5; JFloat 6]])
           [mkSelected (JStr "a") (JFloat 4.2) (JInt 1700000000000)
                       (JArr [JFloat 139.7; JFloat 35.6; JFloat 10]);
            mkSelected (JStr "b") (JStr "5.0") (JInt 1700000000001)
                       (JArr [JFloat 4; JFloat 5; JFloat 6])]
           [mkRow (JStr "a") (JFloat 4.2) (JInt 1700000000000)
                  (JArr [JFloat 139.7; JFloat 35.6; JFloat 10])
                  (JFloat 139.7) (JFloat 35.6) (JFloat 10) (Timestamp 1700000000000000000);
            mkRow (JStr "b") (JStr "5.0") (JInt 1700000000001)
                  (JArr [JFloat 4; JFloat 5; JFloat 6])
                  (JFloat 4) (JFloat 5) (JFloat 6) (Timestamp 1700000000001000000)]
           (mkRow (JStr "b") (JStr "5.0") (JInt 1700000000001)
                  (JArr [JFloat 4; JFloat 5; JFloat 6])
                  (JFloat 4) (JFloat 5) (JFloat 6) (Timestamp 1700000000001000000))).
  - reflexivity.
  - reflexivity.
  - reflexivity.
  - reflexivity.
  - reflexivity.
  - repeat (apply List.Forall2_cons); try apply Forall2_nil_2; reflexivity.
  - right. left.
  - left. by exists "5.0"%string.
Defined.

(** ** The threshold filter, continued *)

Lemma filter_stage_numeric (df : DataFrame) (t : float) :
  Forall (fun r => exists v, number (mag r) = Ok v) df ->
  filter_stage df t = Ok (List.filter (at_least t) df).
Proof.
  intros Hnum. unfold filter_stage, ge. rewrite apply_fmap.
  rewrite (apply_pure _ (at_least t)).
  - simpl. by rewrite boolean_index_fmap.
  - eapply Forall_impl; [exact Hnum|]. intros r (v & Hv).
    unfold at_least. simpl. rewrite Hv. done.
Qed.

Lemma filter_at_least_numeric (df : DataFrame) (t : float) :
  Forall (fun r => exists v, number (mag r) = Ok v) (List.filter (at_least t) df).
Proof.
  apply Forall_forall. intros r Hr. apply elem_of_filter in Hr as [_ Hr].
  apply at_least_spec in Hr as (v & Hv & _). eauto.
Qed.

Lemma filter_all {A : Type} (p : A -> bool) (l : list A) :
  Forall (fun x => p x = true) l -> List.filter p l = l.
Proof. induction 1 as [|x l Hx _ IH]; simpl; [done|]. by rewrite Hx, IH. Qed.

Lemma filter_none {A : Type} (p : A -> bool) (l : list A) :
  Forall (fun x => p x = false) l -> List.filter p l = [].
Proof. induction 1 as [|x l Hx _ IH]; simpl; [done|]. by rewrite Hx, IH. Qed.

Lemma filter_filter_stronger {A : Type} (p q : A -> bool) (l : list A) :
  (forall x, q x = true -> p x = true) ->
  List.filter q (List.filter p l) = List.filter q l
  /\ List.filter p (List.filter q l) = List.filter q l.
Proof.
  intros Hqp. split.
  - induction l as [|x l IH]; simpl; [done|].
    destruct (p x) eqn:Hp; simpl.
    + by rewrite IH.
    + destruct (q x) eqn:Hq; [|done]. apply Hqp in Hq. congruence.
  - apply filter_all, Forall_forall. intros x Hx.
    apply elem_of_filter in Hx as [_ Hx]. auto.
Qed.

(** X6. Filtering an already filtered frame at the same threshold changes
    nothing; and for thresholds [t1 <= t2], raising the threshold on the
    frame filtered at [t1], or lowering it on the frame filtered at [t2],
    gives the frame filtered at [t2] directly. *)
Theorem filter_stage_composes (df df1 df2 : DataFrame) (t1 t2 : float) :
  (t1 <=? t2)%float = true ->
  filter_stage df t1 = Ok df1 ->
  filter_stage df t2 = Ok df2 ->
  filter_stage df1 t1 = Ok df1
  /\ filter_stage df1 t2 = Ok df2
  /\ filter_stage df2 t1 = Ok df2.
Proof.
  intros Hle H1 H2.
  apply filter_stage_Ok in H1 as ->. apply filter_stage_Ok in H2 as ->.
  assert (forall r, at_least t2 r = true -> at_least t1 r = true) as Himp.
  { intros r Hr. apply at_least_spec in Hr as (v & Hv & Hr). apply at_least_spec.
    exists v. split; [done|]. by eapply leb_trans. }
  destruct (filter_filter_stronger (at_least t1) (at_least t2) df Himp) as [H12 H21].
  destruct (filter_filter_stronger (at_least t1) (at_least t1) df (fun _ H => H)) as [H11 _].
  rewrite !filter_stage_numeric by apply filter_at_least_numeric.
  by rewrite H11, H12, H21.
Qed.

Lemma filter_stage_composes_witness :
  filter_stage (List.filter (at_least 4) (load_data pandas_ns (serving feed_4_5_6) "u").1) 4
  = Ok (List.filter (at_least 4) (load_data pandas_ns (serving feed_4_5_6) "u").1)
  /\ filter_stage (List.filter (at_least 4) (load_data pandas_ns (serving feed_4_5_6) "u").1) 5
     = Ok (List.filter (at_least 5) (load_data pandas_ns (serving feed_4_5_6) "u").1)
  /\ filter_stage (List.filter (at_least 5) (load_data pandas_ns (serving feed_4_5_6) "u").1) 4
     = Ok (List.filter (at_least 5) (load_data pandas_ns (serving feed_4_5_6) "u").1).
Proof.
  apply (filter_stage_composes (load_data pandas_ns (serving feed_4_5_6) "u").1 _ _ 4 5).
  - reflexivity.
  - vm_compute. reflexivity.
  - vm_compute. reflexivity.
Defined.

(** X7. On a normalized frame, a threshold at or below the least magnitude
    keeps every row, and a threshold that is not at or below the greatest
    magnitude (above it, or [NaN]) leaves none. *)
Theorem filter_stage_extremes (df : DataFrame) (t m : float) :
  Normalized df ->
  (least_magnitude df m -> (t <=? m)%float = true -> filter_stage df t = Ok df)
  /\ (greatest_magnitude df m -> (t <=? m)%float = false -> filter_stage df t = Ok []).
Proof.
  intros Hn. rewrite (filter_stage_Normalized _ _ Hn). split.
  - intros [_ Hleast] Hle. f_equal. apply filter_all, Forall_forall. intros r Hr.
    destruct (Hleast r Hr) as (v & Hv & Hmv). apply at_least_spec.
    exists v. split; [done|]. by eapply leb_trans.
  - intros [_ Hgreatest] Hnle. f_equal. apply filter_none, Forall_forall. intros r Hr.
    destruct (Hgreatest r Hr) as (v & Hv & Hvm).
    unfold at_least. rewrite Hv.
    destruct (t <=? v)%float eqn:Htv; [|done].
    rewrite (leb_trans _ _ _ Htv Hvm) in Hnle. done.
Qed.

Lemma filter_stage_extremes_witness :
  filter_stage frame_4_5_6 4 = Ok frame_4_5_6
  /\ filter_stage frame_4_5_6 7 = Ok [].
Proof.
  assert (Normalized frame_4_5_6) as Hn by (repeat constructor; vm_compute; eauto).
  split.
  - apply (proj1 (filter_stage_extremes frame_4_5_6 4 4 Hn)); [|reflexivity].
    split.
    + eexists. split; [left|reflexivity].
    + intros r Hr. unfold frame_4_5_6 in Hr.
      repeat (apply elem_of_cons in Hr as [->|Hr]);
        [eexists; split; reflexivity ..|by apply elem_of_nil in Hr].
  - apply (proj2 (filter_stage_extremes frame_4_5_6 7 6.5 Hn)); [|reflexivity].
    split.
    + eexists. split; [right; right; left|reflexivity].
    + intros r Hr. unfold frame_4_5_6 in Hr.
      repeat (apply elem_of_cons in Hr as [->|Hr]);
        [eexists; split; reflexivity ..|by apply elem_of_nil in Hr].
Defined.

(** ** The sections of the page *)

Lemma foldl_smaller_elem (col : list json) (acc : json) :
  foldl smaller acc col = acc \/ foldl smaller acc col ∈ col.
Proof.
  revert acc. induction col as [|c col IH]; intros acc; [by left|].
  cbn [foldl]. destruct (IH (smaller acc c)) as [->|Hin]; [|right; by right].
  unfold smaller. destruct (isnull c); [by left|].
  destruct (isnull acc); [right; left|]. destruct (below c acc); [right; left | by left].
Qed.

Lemma foldl_larger_elem (col : list json) (acc : json) :
  foldl larger acc col = acc \/ foldl larger acc col ∈ col.
Proof.
  revert acc. induction col as [|c col IH]; intros acc; [by left|].
  cbn [foldl]. destruct (IH (larger acc c)) as [->|Hin]; [|right; by right].
  unfold larger. destruct (isnull c); [by left|].
  destruct (isnull acc); [right; left|]. destruct (below acc c); [right; left | by left].
Qed.

(** [float()] of the least or greatest magnitude of a normalized frame
    returns, unless that magnitude is an integer too large for binary64. *)
Lemma float_of_extreme (df : DataFrame) (c : json) :
  Normalized df ->
  c = JFloat nan \/ c ∈ mag <$> df ->
  (exists m, py_float c = Ok m)
  \/ (py_float c = Raise OverflowError /\ exists r, r ∈ df /\ too_large (mag r) = true).
Proof.
  intros Hn [->|Hc]; [left; by eexists|].
  apply list_elem_of_fmap in Hc as (r & -> & Hr).
  unfold Normalized in Hn. rewrite Forall_forall in Hn.
  destruct (Hn r Hr) as (_ & v & Hv & _).
  unfold py_float. destruct (too_large (mag r)) eqn:Hlarge.
  - right. split; [done|]. by exists r.
  - left. by exists v.
Qed.

(** How the slider section can end on a normalized frame. *)
Lemma magnitude_filter_outcome (slider : SliderArgs -> result float) (df : DataFrame) :
  Normalized df ->
  (exists filtered,
      outcome (magnitude_filter slider df) = Ok filtered
      /\ Normalized filtered
      /\ filtered `sublist_of` df)
  \/ (exists e,
        magnitude_filter slider df = mkPage [] (Raise e)
        /\ ((e = OverflowError /\ exists r, r ∈ df /\ too_large (mag r) = true)
            \/ exists args, slider args = Raise e)).
Proof.
  intros Hn. destruct df as [|r df].
  { left. exists []. by repeat split. }
  destruct (apply_number_Ok (mag <$> r :: df)) as [vs Happly].
  { apply Forall_fmap. eapply Forall_impl; [exact Hn|]. intros r' (_ & v & Hv & _). by exists v. }
  unfold magnitude_filter, series_min, series_max. cbn [empty]. rewrite Happly.
  cbn [mbind result_bind].
  destruct (float_of_extreme (r :: df) (foldl smaller (JFloat nan) (mag <$> r :: df)) Hn)
    as [[min_mag ->]|[-> Hlarge]].
  { destruct (foldl_smaller_elem (mag <$> r :: df) (JFloat nan)); auto. }
  2: { right. exists OverflowError. split; [done|]. by left. }
  destruct (float_of_extreme (r :: df) (foldl larger (JFloat nan) (mag <$> r :: df)) Hn)
    as [[max_mag ->]|[-> Hlarge]].
  { destruct (foldl_larger_elem (mag <$> r :: df) (JFloat nan)); auto. }
  2: { right. exists OverflowError. split; [done|]. by left. }
  unfold lift, show. cbn [mbind page_bind outcome shown app].
  destruct (slider _) as [t|e] eqn:Hslider; cbn [mbind page_bind outcome shown app].
  - left. rewrite (filter_stage_Normalized _ _ Hn). cbn [outcome].
    eexists. split; [reflexivity|]. split; [by apply Normalized_filter | apply filter_sublist].
  - right. exists e. split; [done|]. right. by eexists.
Qed.

Lemma render_unfold (pd : Pandas) (slider : SliderArgs -> result float)
    (df filtered : DataFrame) :
  outcome (magnitude_filter slider df) = Ok filtered ->
  render pd slider df
  = mkPage (shown (magnitude_filter slider df)
            ++ shown (table_section pd filtered) ++ shown (map_section pd filtered))
           (outcome (map_section pd filtered)).
Proof.
  intros H. unfold render. unfold mbind at 1. unfold page_bind. rewrite H.
  unfold table_section. destruct (empty filtered); reflexivity.
Qed.

Lemma magnitude_filter_no_warning (slider : SliderArgs -> result float) (df : DataFrame) :
  St_warning ∉ shown (magnitude_filter slider df).
Proof.
  intros Hin.
  destruct (magnitude_filter_shown slider df) as [H|(args & t & n & _ & [H|H])];
    rewrite H in Hin;
    repeat (apply elem_of_cons in Hin as [Hin|Hin]; [done|]); by apply elem_of_nil in Hin.
Qed.

(** X8. Whatever the provider answers and whatever the slider does, the
    slider section on the frame [load_data] returns ends in one of two
    ways. Either it ends with a frame that is a subsequence of that frame
    and is normalized as well. Or it stops before anything is written to
    the sidebar, and then for one of two reasons only: [float()] of the
    least or the greatest magnitude raised an [OverflowError], which takes a
    row whose magnitude is an integer too large for binary64, or the slider
    raised. The comparisons, the rounding and the threshold filter do not
    raise. *)
Theorem slider_section_outcome
    (pd : Pandas) (requests_get : string -> result Response) (url : string)
    (slider : SliderArgs -> result float) :
  (exists filtered,
      outcome (magnitude_filter slider (load_data pd requests_get url).1) = Ok filtered
      /\ Normalized filtered
      /\ filtered `sublist_of` (load_data pd requests_get url).1)
  \/ (exists e,
        magnitude_filter slider (load_data pd requests_get url).1 = mkPage [] (Raise e)
        /\ ((e = OverflowError
             /\ exists r, r ∈ (load_data pd requests_get url).1 /\ too_large (mag r) = true)
            \/ exists args, slider args = Raise e)).
Proof. apply magnitude_filter_outcome, load_data_Normalized. Qed.

(** X9. When the frame left by the magnitude filter is not empty and the
    means of its latitudes and longitudes can be taken, the script ends
    without an exception and shows, after the sidebar, the table of the
    filtered frame and then the map, laid over every filtered row (not only
    the twenty of the table) and centred on the two means; no warning is
    shown. *)
Theorem nonempty_table_shows_table_and_map
    (pd : Pandas) (slider : SliderArgs -> result float) (df filtered : DataFrame)
    (latitude longitude : float) :
  outcome (magnitude_filter slider df) = Ok filtered ->
  filtered <> [] ->
  mean pd (lat <$> filtered) = Ok latitude ->
  mean pd (lon <$> filtered) = Ok longitude ->
  render pd slider df
  = mkPage (shown (magnitude_filter slider df)
            ++ [St_dataframe (table_view pd filtered);
                St_pydeck_chart filtered latitude longitude])
           (Ok tt)
  /\ St_warning ∉ shown (render pd slider df).
Proof.
  intros H Hne Hlat Hlon.
  assert (render pd slider df
          = mkPage (shown (magnitude_filter slider df)
                    ++ [St_dataframe (table_view pd filtered);
                        St_pydeck_chart filtered latitude longitude])
                   (Ok tt)) as Hpage.
  { rewrite (render_unfold _ _ _ _ H). unfold table_section, map_section.
    destruct filtered as [|r filtered]; [done|]. cbn [empty].
    rewrite Hlat, Hlon. reflexivity. }
  split; [done|]. rewrite Hpage. cbn [shown].
  intros Hin. apply elem_of_app in Hin as [Hin|Hin].
  - by apply magnitude_filter_no_warning in Hin.
  - repeat (apply elem_of_cons in Hin as [Hin|Hin]; [done|]). by apply elem_of_nil in Hin.
Qed.

Lemma nonempty_table_shows_table_and_map_witness :
  render pandas_ns first_run frame_4_5_6
  = mkPage (shown (magnitude_filter first_run frame_4_5_6)
            ++ [St_dataframe (table_view pandas_ns frame_4_5_6);
                St_pydeck_chart frame_4_5_6 16.199999999999999 50.233333333333327])
           (Ok tt)
  /\ St_warning ∉ shown (render pandas_ns first_run frame_4_5_6).
Proof.
  apply (nonempty_table_shows_table_and_map pandas_ns first_run frame_4_5_6 frame_4_5_6).
  - vm_compute. reflexivity.
  - discriminate.
  - vm_compute. reflexivity.
  - vm_compute. reflexivity.
Defined.

(** X10. After [load_data], the script can stop with an exception in two
    places only: in the slider section, or at one of the two means of the
    map's camera. In the second case the sidebar and the table have been
    shown, and neither the map nor the warning. The table section and the
    warning branch do not raise (the calls that only display are taken to
    accept what they are given). *)
Theorem script_stops_at_slider_or_mean
    (pd : Pandas) (slider : SliderArgs -> result float) (df : DataFrame) (e : exn) :
  outcome (render pd slider df) = Raise e ->
  outcome (magnitude_filter slider df) = Raise e
  \/ exists filtered,
       outcome (magnitude_filter slider df) = Ok filtered
       /\ filtered <> []
       /\ (mean pd (lat <$> filtered) = Raise e
           \/ (exists latitude, mean pd (lat <$> filtered) = Ok latitude)
              /\ mean pd (lon <$> filtered) = Raise e)
       /\ shown (render pd slider df)
          = shown (magnitude_filter slider df) ++ [St_dataframe (table_view pd filtered)].
Proof.
  destruct (outcome (magnitude_filter slider df)) as [filtered|e'] eqn:Hout.
  - rewrite (render_unfold _ _ _ _ Hout). cbn [outcome shown].
    unfold table_section, map_section.
    destruct filtered as [|r filtered]; [done|]. cbn [empty].
    intros He. right. exists (r :: filtered). split; [done|]. split; [done|].
    unfold lift, show in *.
    destruct (mean pd (lat <$> r :: filtered)) as [latitude|e1];
      cbn [mbind page_bind outcome shown app] in *.
    + destruct (mean pd (lon <$> r :: filtered)) as [longitude|e2];
        cbn [mbind page_bind outcome shown app] in *; [done|].
      injection He as ->. split; [|done]. right. split; [by eexists | done].
    + injection He as ->. split; [by left | done].
  - intros He. left. unfold render in He. unfold mbind at 1 in He. unfold page_bind in He.
    rewrite Hout in He. simpl in He. by injection He as ->.
Qed.

Lemma script_stops_at_slider_or_mean_witness :
  outcome (magnitude_filter first_run (load_data pandas_ns (serving feed_text_latitude) "u").1)
  = Raise TypeError
  \/ exists filtered,
       outcome (magnitude_filter first_run (load_data pandas_ns (serving feed_text_latitude) "u").1)
       = Ok filtered
       /\ filtered <> []
       /\ (mean pandas_ns (lat <$> filtered) = Raise TypeError
           \/ (exists latitude, mean pandas_ns (lat <$> filtered) = Ok latitude)
              /\ mean pandas_ns (lon <$> filtered) = Raise TypeError)
       /\ shown (render pandas_ns first_run (load_data pandas_ns (serving feed_text_latitude) "u").1)
          = shown (magnitude_filter first_run (load_data pandas_ns (serving feed_text_latitude) "u").1)
            ++ [St_dataframe (table_view pandas_ns filtered)].
Proof.
  apply (script_stops_at_slider_or_mean pandas_ns first_run
           (load_data pandas_ns (serving feed_text_latitude) "u").1 TypeError).
  vm_compute. reflexivity.
Defined.

(** ** The table *)

Lemma sorts_before_spec (a b : datetime) :
  sorts_before a b = true <-> at_least_as_recent a b.
Proof.
  destruct a as [|x], b as [|y]; simpl; try done.
  apply Z.leb_le.
Qed.

Lemma at_least_as_recent_total (a b : datetime) :
  ~ at_least_as_recent a b -> at_least_as_recent b a.
Proof. destruct a as [|x], b as [|y]; simpl; try done; lia. Qed.

Lemma at_least_as_recent_trans (a b c : datetime) :
  at_least_as_recent a b -> at_least_as_recent b c -> at_least_as_recent a c.
Proof. destruct a as [|x], b as [|y], c as [|z]; simpl; try done; lia. Qed.

Lemma insert_by_date_Permutation (r : TableRow) (rows : list TableRow) :
  Permutation (insert_by_date r rows) (r :: rows).
Proof.
  induction rows as [|r' rows IH]; simpl; [done|].
  destruct (sorts_before (table_date r) (table_date r')); [done|].
  rewrite IH. apply perm_swap.
Qed.

Lemma insert_by_date_StronglySorted (r : TableRow) (rows : list TableRow) :
  StronglySorted (fun a b => at_least_as_recent (table_date a) (table_date b)) rows ->
  StronglySorted (fun a b => at_least_as_recent (table_date a) (table_date b))
                 (insert_by_date r rows).
Proof.
  induction 1 as [|r' rows Hsorted IH Hall]; simpl.
  - repeat constructor.
  - destruct (sorts_before (table_date r) (table_date r')) eqn:Hrr'.
    + apply sorts_before_spec in Hrr'.
      constructor; [by constructor|]. constructor; [done|].
      eapply Forall_impl; [exact Hall|]. intros x Hx. cbv beta in *.
      by eapply at_least_as_recent_trans.
    + constructor; [done|].
      rewrite insert_by_date_Permutation. constructor; [|done].
      apply at_least_as_recent_total. intros H. apply sorts_before_spec in H. congruence.
Qed.

(** The stable sort of the examples does what [sort_values] promises. *)
Lemma stable_sort_by_date_sorts : sorts_by_date_descending stable_sort_by_date.
Proof.
  intros rows. induction rows as [|r rows [IHperm IHsorted]]; simpl.
  - split; constructor.
  - split.
    + rewrite insert_by_date_Permutation. by constructor.
    + by apply insert_by_date_StronglySorted.
Qed.

Lemma StronglySorted_take_drop {A : Type} (R : A -> A -> Prop) (n : nat) (l : list A) :
  StronglySorted R l -> forall x y, x ∈ take n l -> y ∈ drop n l -> R x y.
Proof.
  intros Hsorted. revert n. induction Hsorted as [|a l _ IH Hall]; intros n x y Hx Hy.
  - rewrite take_nil in Hx. by apply elem_of_nil in Hx.
  - destruct n as [|n]; simpl in *; [by apply elem_of_nil in Hx|].
    apply elem_of_cons in Hx as [->|Hx].
    + rewrite Forall_forall in Hall. apply Hall.
      eapply elem_of_sublist; [exact Hy | apply sublist_drop].
    + by eapply IH.
Qed.

Lemma StronglySorted_take {A : Type} (R : A -> A -> Prop) (n : nat) (l : list A) :
  StronglySorted R l -> StronglySorted R (take n l).
Proof.
  intros Hsorted. revert n. induction Hsorted as [|a l _ IH Hall]; intros [|n]; simpl;
    try constructor; [apply IH|].
  rewrite Forall_forall in Hall |- *. intros x Hx. apply Hall.
  eapply elem_of_sublist; [exact Hx | apply sublist_take].
Qed.

(** X11. Where [sort_values] has sorted the four table columns of the frame by
    date, latest first and missing dates last, without losing or repeating
    a row, the table shows [min 20 n] of the [n] rows of the frame, each of
    them the date, place, magnitude and depth of a row of the frame, in
    that order; together with the rows left out they are the rows of the
    frame; and every row shown is at least as recent as every row left
    out. *)
Theorem table_view_most_recent (pd : Pandas) (df : DataFrame) :
  Permutation (sort_values pd (table_columns <$> df)) (table_columns <$> df) ->
  StronglySorted (fun a b => at_least_as_recent (table_date a) (table_date b))
                 (sort_values pd (table_columns <$> df)) ->
  length (table_view pd df) = (20 `min` length df)%nat
  /\ StronglySorted (fun a b => at_least_as_recent (table_date a) (table_date b))
                    (table_view pd df)
  /\ (forall shown_row : TableRow,
        shown_row ∈ table_view pd df -> exists r, r ∈ df /\ shown_row = table_columns r)
  /\ exists left_out : list TableRow,
       Permutation (table_view pd df ++ left_out) (table_columns <$> df)
       /\ forall shown_row row_left_out : TableRow,
            shown_row ∈ table_view pd df -> row_left_out ∈ left_out ->
            at_least_as_recent (table_date shown_row) (table_date row_left_out).
Proof.
  intros Hperm Hsorted. unfold table_view. split; [|split; [|split]].
  - rewrite length_take, (Permutation_length Hperm), length_fmap. done.
  - by apply StronglySorted_take.
  - intros x Hx.
    assert (x ∈ table_columns <$> df) as Hin.
    { rewrite <- Hperm. eapply elem_of_sublist; [exact Hx | apply sublist_take]. }
    apply list_elem_of_fmap in Hin as (r & -> & Hr). by exists r.
  - exists (drop 20 (sort_values pd (table_columns <$> df))). split.
    + by rewrite take_drop.
    + by apply StronglySorted_take_drop.
Qed.

Lemma table_view_most_recent_witness :
  length (table_view pandas_ns (rev frame_4_5_6)) = (20 `min` length (rev frame_4_5_6))%nat
  /\ StronglySorted (fun a b => at_least_as_recent (table_date a) (table_date b))
                    (table_view pandas_ns (rev frame_4_5_6))
  /\ (forall shown_row : TableRow,
        shown_row ∈ table_view pandas_ns (rev frame_4_5_6) ->
        exists r, r ∈ rev frame_4_5_6 /\ shown_row = table_columns r)
  /\ exists left_out : list TableRow,
       Permutation (table_view pandas_ns (rev frame_4_5_6) ++ left_out)
                   (table_columns <$> rev frame_4_5_6)
       /\ forall shown_row row_left_out : TableRow,
            shown_row ∈ table_view pandas_ns (rev frame_4_5_6) ->
            row_left_out ∈ left_out ->
            at_least_as_recent (table_date shown_row) (table_date row_left_out).
Proof.
  apply (table_view_most_recent pandas_ns (rev frame_4_5_6)).
  - vm_compute. reflexivity.
  - cbv -[at_least_as_recent Z.le]. repeat constructor; simpl; lia.
Defined.

(** ** The cache, continued *)

Lemma fresh_entry_insert_expired (ttl now now' : Z) (cache : gmap string Entry) (url : string)
    (df : DataFrame) (elements : list element) :
  now + ttl <= now' ->
  fresh_entry ttl now' (<[url := mkEntry df elements now]> cache) url = None.
Proof.
  intros H. unfold fresh_entry. rewrite lookup_insert_eq. simpl.
  destruct (Z.ltb_spec now' (now + ttl)); [lia | done].
Qed.

(** X12. A failed fetch is cached like any other result. After a lookup that had
    to fetch and failed, every lookup of the same URL less than 600 seconds
    later returns the empty frame and shows the same error again without
    asking the provider, even if the provider would now answer; the first
    lookup 600 seconds later or more asks the provider again. *)
Theorem failed_fetch_is_cached
    (pd : Pandas) (requests_get1 requests_get2 : string -> result Response) (url : string) (e : exn)
    (t1 t2 : Z) (cache : gmap string Entry) :
  FetchError requests_get1 url e ->
  fresh_entry 600 t1 cache url = None ->
  let l1 := load_data_cached pd requests_get1 t1 cache url in
  (t2 < t1 + 600 ->
   load_data_cached pd requests_get2 t2 (cache_after l1) url
   = mkLookup [] [St_error e] 0 (cache_after l1))
  /\ (t1 + 600 <= t2 ->
      load_data_cached pd requests_get2 t2 (cache_after l1) url
      = mkLookup (load_data pd requests_get2 url).1 (load_data pd requests_get2 url).2 1
                 (<[url := mkEntry (load_data pd requests_get2 url).1
                                   (load_data pd requests_get2 url).2 t2]> (cache_after l1))).
Proof.
  intros Herr Hfresh. cbv zeta.
  assert (load_data pd requests_get1 url = ([], [St_error e])) as Hload.
  { unfold load_data. by rewrite (FetchError_Raise _ _ _ _ Herr). }
  unfold load_data_cached. rewrite (cache_data_miss _ _ _ _ _ Hfresh), Hload.
  cbn [cache_after fst snd]. split; intros Ht.
  - unfold cache_data. by rewrite fresh_entry_insert.
  - apply cache_data_miss. by apply fresh_entry_insert_expired.
Qed.

Lemma failed_fetch_is_cached_witness :
  let l1 := load_data_cached pandas_ns (fun _ => Raise RequestException) 0 ∅ "u" in
  (599 < 0 + 600 ->
   load_data_cached pandas_ns (serving feed_4_5_6) 599 (cache_after l1) "u"
   = mkLookup [] [St_error RequestException] 0 (cache_after l1))
  /\ (0 + 600 <= 599 ->
      load_data_cached pandas_ns (serving feed_4_5_6) 599 (cache_after l1) "u"
      = mkLookup (load_data pandas_ns (serving feed_4_5_6) "u").1 (load_data pandas_ns (serving feed_4_5_6) "u").2 1
                 (<["u"%string := mkEntry (load_data pandas_ns (serving feed_4_5_6) "u").1
                                   (load_data pandas_ns (serving feed_4_5_6) "u").2 599]> (cache_after l1))).
Proof.
  apply (failed_fetch_is_cached pandas_ns (fun _ => Raise RequestException) (serving feed_4_5_6)
           "u"%string RequestException 0 599 ∅).
  - apply network_failure. reflexivity.
  - reflexivity.
Defined.

Lemma cache_data_other_url (ttl : Z) (func : string -> DataFrame * list element) (now : Z)
    (cache : gmap string Entry) (url url' : string) :
  url <> url' ->
  cache_after (cache_data ttl func now cache url) !! url' = cache !! url'.
Proof.
  intros Hne. unfold cache_data.
  destruct (fresh_entry ttl now cache url); [done|].
  destruct (func url). simpl. by rewrite lookup_insert_ne.
Qed.

(** X13. Every option of the select box is a key of [timeframe_urls], so the
    lookup of line 40 finds a URL; the four URLs differ from one another;
    and a run for one timeframe leaves the cache entries of the other
    timeframes as they were. *)
Theorem timeframes_do_not_share_cache_entries :
  (forall label : string,
      label ∈ timeframe_options ->
      exists timeframe : Timeframe,
        label = timeframe_label timeframe
        /\ urls_getitem timeframe_urls_items label = Some (timeframe_urls timeframe))
  /\ (forall timeframe timeframe' : Timeframe,
        timeframe_urls timeframe = timeframe_urls timeframe' -> timeframe = timeframe')
  /\ (forall (timeframe timeframe' : Timeframe) (requests_get : string -> result Response)
             (pd : Pandas) (slider : SliderArgs -> result float) (now : Z)
             (cache : gmap string Entry),
        timeframe <> timeframe' ->
        (dashboard timeframe requests_get pd slider now cache).2 !! timeframe_urls timeframe'
        = cache !! timeframe_urls timeframe').
Proof.
  assert (forall timeframe timeframe' : Timeframe,
             timeframe_urls timeframe = timeframe_urls timeframe' -> timeframe = timeframe')
    as Hinj.
  { intros [] []; simpl; intros H; (reflexivity || discriminate H). }
  split; [|split; [exact Hinj|]].
  - intros label Hlabel. unfold timeframe_options in Hlabel.
    repeat (apply elem_of_cons in Hlabel as [->|Hlabel]).
    + by exists PastHour.
    + by exists PastDay.
    + by exists Past7Days.
    + by exists Past30Days.
    + by apply elem_of_nil in Hlabel.
  - intros timeframe timeframe' requests_get pd slider now cache Hne.
    unfold dashboard, load_data_cached. cbn [snd].
    apply cache_data_other_url. intros Heq. by apply Hne, Hinj.
Qed.

Lemma fresh_entry_Some (ttl now : Z) (cache : gmap string Entry) (url : string) (entry : Entry) :
  fresh_entry ttl now cache url = Some entry ->
  cache !! url = Some entry /\ now < stored_at entry + ttl.
Proof.
  unfold fresh_entry. destruct (cache !! url) as [entry'|]; simpl; [|done].
  destruct (Z.ltb_spec now (stored_at entry' + ttl)); [|done].
  by intros [= ->].
Qed.

(** X14. After every lookup the cache holds, for the URL looked up, an entry
    younger than 600 seconds whose frame and elements are the ones the
    lookup returned and replayed; so a second lookup at the same clock
    reading returns the same without calling [load_data], whatever the
    provider answers. *)
Theorem lookup_result_is_cached
    (pd : Pandas) (requests_get requests_get' : string -> result Response) (now : Z)
    (cache : gmap string Entry) (url : string) :
  let l := load_data_cached pd requests_get now cache url in
  (exists entry,
      cache_after l !! url = Some entry
      /\ cached_value entry = returned l
      /\ cached_elements entry = replayed l
      /\ now < stored_at entry + 600)
  /\ load_data_cached pd requests_get' now (cache_after l) url
     = mkLookup (returned l) (replayed l) 0 (cache_after l).
Proof.
  cbv zeta.
  assert (exists entry,
             cache_after (load_data_cached pd requests_get now cache url) !! url = Some entry
             /\ cached_value entry = returned (load_data_cached pd requests_get now cache url)
             /\ cached_elements entry = replayed (load_data_cached pd requests_get now cache url)
             /\ now < stored_at entry + 600) as (entry & Hentry & Hvalue & Helements & Hage).
  { unfold load_data_cached, cache_data.
    destruct (fresh_entry 600 now cache url) as [entry|] eqn:Hfresh.
    - apply fresh_entry_Some in Hfresh as [Hentry Hage]. by exists entry.
    - destruct (load_data pd requests_get url) as [df elements]. simpl.
      eexists. rewrite lookup_insert_eq. repeat split; simpl; lia. }
  split; [by exists entry|].
  unfold load_data_cached at 1.
  rewrite (cache_data_hit _ _ _ _ _ _ Hentry Hage). by rewrite Hvalue, Helements.
Qed.

(** ** Missing columns *)

Lemma has_column_false (c : string) (fs : list json) :
  (forall f, f ∈ fs -> dict_get c (simple_json_normalize f) = None) ->
  has_column c (simple_json_normalize <$> fs) = false.
Proof.
  induction fs as [|f fs IH]; intros H; csimpl; [done|].
  rewrite (H f) by left. simpl. apply IH. intros f' Hf'. apply H. by right.
Qed.

(** X15. If one of the four fields the script selects ([properties.place],
    [properties.mag], [properties.time], [geometry.coordinates]) is carried
    by no feature of the feed, which is the case of a feed without
    features, the column selection raises a [KeyError]: the error is shown
    and the frame returned is empty. *)
Theorem load_data_missing_column
    (pd : Pandas) (requests_get : string -> result Response) (url : string) (response : Response)
    (data : json) (fs : list json) (c : string) :
  requests_get url = Ok response ->
  response_json response = Ok data ->
  getitem data "features" = Ok (JArr fs) ->
  c = "properties.place" \/ c = "properties.mag" \/ c = "properties.time"
    \/ c = "geometry.coordinates" ->
  (forall f, f ∈ fs -> dict_get c (simple_json_normalize f) = None) ->
  load_data pd requests_get url = ([], [St_error KeyError]).
Proof.
  intros Hget Hjson Hfeatures Hc Hnone.
  apply has_column_false in Hnone.
  assert (select_columns (simple_json_normalize <$> fs) = Raise KeyError) as Hsel.
  { unfold select_columns.
    destruct Hc as [->|[->|[->| ->]]]; rewrite Hnone;
      repeat (rewrite ?andb_false_r, ?andb_false_l); done. }
  unfold load_data, load_data_try.
  rewrite Hget. simpl. rewrite Hjson. simpl. rewrite Hfeatures. simpl. by rewrite Hsel.
Qed.

Lemma load_data_missing_column_witness :
  load_data pandas_ns (serving feed_without_magnitudes) "u" = ([], [St_error KeyError]).
Proof.
  apply (load_data_missing_column pandas_ns (serving feed_without_magnitudes) "u"%string
           (mkResponse (Ok feed_without_magnitudes)) feed_without_magnitudes
           [JObj [("type", JStr "Feature");
                  ("properties", JObj [("place", JStr "a"); ("time", JInt 1700000000000)]);
                  ("geometry", JObj [("type", JStr "Point");
                                     ("coordinates",
                                      JArr [JFloat 139.7; JFloat 35.6; JFloat 10])])]]%string
           "properties.mag"%string).
  - reflexivity.
  - reflexivity.
  - reflexivity.
  - right. left. reflexivity.
  - intros f Hf. apply list_elem_of_singleton in Hf as ->. reflexivity.
Defined.
